(** * Py-HotReloader: a shallow embedding of [hot_reload.py]

    The development follows the layout of the script:
    - [PyStr]     the [str] methods the script calls;
    - [PathLib]   the part of [pathlib] (POSIX flavour) the script uses;
    - [Hashlib]   [hashlib.md5(...).hexdigest()];
    - [ConsoleUI], [CodeReloader], [FileChangeHandler], [watch_and_reload]
      and the [__main__] block, written in a small state-and-exception
      monad over an explicit world (file system, [sys.path], console);
    - the properties of the script. *)

From Stdlib Require Import ZArith List Strings.String Strings.Ascii Strings.Byte Bool Lia.
From stdpp Require Import base option list gmap strings.

Local Open Scope string_scope.
Local Open Scope list_scope.

(* ===================================================================== *)
(** ** Python [str] methods                                              *)
(* ===================================================================== *)

Module PyStr.

(** [s.startswith(p)] *)
Definition startswith (s p : string) : bool := String.prefix p s.

(** [s.endswith(suf)]: some tail of [s] is [suf]. *)
Fixpoint endswith (s suf : string) : bool :=
  if String.eqb s suf then true
  else match s with
       | EmptyString => false
       | String _ s' => endswith s' suf
       end.

(** [sep.join(l)] *)
Fixpoint join (sep : string) (l : list string) : string :=
  match l with
  | [] => ""
  | [x] => x
  | x :: rest => x +:+ sep +:+ join sep rest
  end.

(** [s.split(sep)] for a one-character separator. *)
Fixpoint split (sep : ascii) (s : string) : list string :=
  match s with
  | EmptyString => [""]
  | String c s' =>
      if Ascii.eqb c sep then "" :: split sep s'
      else match split sep s' with
           | h :: t => String c h :: t
           | [] => [String c ""]
           end
  end.

(** The scan of [s.replace(old, new)] for a non-empty [old]: left to
    right, occurrences never overlap.  [skip] counts the characters of
    the occurrence just matched that are still to be consumed. *)
Fixpoint replace_scan (old new : string) (skip : nat) (s : string) : string :=
  match s with
  | EmptyString => ""
  | String c s' =>
      match skip with
      | S k => replace_scan old new k s'
      | O =>
          if String.prefix old s
          then new +:+ replace_scan old new (String.length old - 1) s'
          else String c (replace_scan old new 0 s')
      end
  end.

(** With an empty [old], Python puts [new] before every character and
    at the end. *)
Fixpoint interleave (new s : string) : string :=
  match s with
  | EmptyString => new
  | String c s' => new +:+ String c (interleave new s')
  end.

(** [s.replace(old, new)] *)
Definition replace (s old new : string) : string :=
  match old with
  | EmptyString => interleave new s
  | _ => replace_scan old new 0 s
  end.

(** [s.rfind(c)] for a one-character needle: the highest index, or -1. *)
Fixpoint rfind_from (c : ascii) (s : string) (i acc : Z) : Z :=
  match s with
  | EmptyString => acc
  | String a s' => rfind_from c s' (i + 1)%Z (if Ascii.eqb a c then i else acc)
  end.

Definition rfind (s : string) (c : ascii) : Z := rfind_from c s 0%Z (-1)%Z.

(** [len(s)] as a Python int. *)
Definition len (s : string) : Z := Z.of_nat (String.length s).

(** [s[:i]] and [s[i:]] for [0 <= i]. *)
Definition upto (s : string) (i : Z) : string := String.substring 0 (Z.to_nat i) s.
Definition from (s : string) (i : Z) : string :=
  String.substring (Z.to_nat i) (String.length s - Z.to_nat i) s.

(** [sub in s] at index [i]: the occurrence predicate used to state
    where [".py"] occurs. *)
Definition occurs_at (sub s : string) (i : nat) : Prop :=
  String.substring i (String.length sub) s = sub.

End PyStr.

(* ===================================================================== *)
(** ** [pathlib], POSIX flavour                                          *)
(* ===================================================================== *)

Module PathLib.

(** A parsed path: its root (empty, one slash or two slashes) and its
    components.  Empty components and single dots are dropped by the
    parser; double dots are kept. *)
Record Path := mkPath { root : string; parts : list string }.

#[global] Instance Path_eq_dec : EqDecision Path.
Proof. solve_decision. Defined.

Definition sep : string := "/".

(** [_PosixFlavour.splitroot]: exactly two leading slashes are kept as
    a root of their own, any other number of them is one slash. *)
Definition splitroot (part : string) : string :=
  match part with
  | String "/" (String "/" (String "/" _)) => "/"
  | String "/" (String "/" _) => "//"
  | String "/" _ => "/"
  | _ => ""
  end.

Definition keep_part (x : string) : bool :=
  negb (String.eqb x "") && negb (String.eqb x ".").

Definition rel_parts (s : string) : list string :=
  List.filter keep_part (PyStr.split "/" s).

(** [Path(s)] *)
Definition Path_ (s : string) : Path :=
  {| root := splitroot s; parts := rel_parts s |}.

(** [Path()], the current directory. *)
Definition here : Path := Path_ "".

(** [p / s]: a rooted right operand replaces the left one. *)
Definition truediv (p : Path) (s : string) : Path :=
  let q := Path_ s in
  if String.eqb (root q) "" then {| root := root p; parts := parts p ++ parts q |}
  else q.

(** [str(p)] *)
Definition str (p : Path) : string :=
  match root p, parts p with
  | EmptyString, [] => "."
  | r, ps => r +:+ PyStr.join sep ps
  end.

(** [p.name]: the last component, empty when there is none. *)
Definition name (p : Path) : string := List.last (parts p) "".

(** The index at which the suffix of a name starts, when it has one:
    [0 < i < len(name) - 1] for [i = name.rfind('.')]. *)
Definition suffix_index (nm : string) : option Z :=
  let i := PyStr.rfind nm "." in
  if ((0 <? i) && (i <? PyStr.len nm - 1))%Z then Some i else None.

(** [p.suffix] *)
Definition suffix (p : Path) : string :=
  match suffix_index (name p) with
  | Some i => PyStr.from (name p) i
  | None => ""
  end.

(** [p.stem] *)
Definition stem (p : Path) : string :=
  match suffix_index (name p) with
  | Some i => PyStr.upto (name p) i
  | None => name p
  end.

(** [p.with_suffix('')]: [None] stands for the [ValueError] raised on
    an empty name. *)
Definition with_suffix_empty (p : Path) : option Path :=
  if String.eqb (name p) "" then None
  else Some {| root := root p; parts := List.removelast (parts p) ++ [stem p] |}.

(** [p.with_suffix('.py')], same convention. *)
Definition with_suffix_py (p : Path) : option Path :=
  if String.eqb (name p) "" then None
  else Some {| root := root p; parts := List.removelast (parts p) ++ [stem p +:+ ".py"] |}.

End PathLib.

(* ===================================================================== *)
(** ** [hashlib.md5]                                                     *)
(* ===================================================================== *)

Module Hashlib.

Local Open Scope Z_scope.

Definition add32 (a b : Z) : Z := (a + b) mod 2 ^ 32.
Definition not32 (a : Z) : Z := Z.lxor a 0xffffffff.
Definition rotl32 (x n : Z) : Z :=
  Z.lor (Z.shiftl x n mod 2 ^ 32) (Z.shiftr x (32 - n)).

(** [floor(2^32 * abs(sin(i + 1)))] *)
Definition K : list Z :=
  [ 0xd76aa478; 0xe8c7b756; 0x242070db; 0xc1bdceee;
    0xf57c0faf; 0x4787c62a; 0xa8304613; 0xfd469501;
    0x698098d8; 0x8b44f7af; 0xffff5bb1; 0x895cd7be;
    0x6b901122; 0xfd987193; 0xa679438e; 0x49b40821;
    0xf61e2562; 0xc040b340; 0x265e5a51; 0xe9b6c7aa;
    0xd62f105d; 0x02441453; 0xd8a1e681; 0xe7d3fbc8;
    0x21e1cde6; 0xc33707d6; 0xf4d50d87; 0x455a14ed;
    0xa9e3e905; 0xfcefa3f8; 0x676f02d9; 0x8d2a4c8a;
    0xfffa3942; 0x8771f681; 0x6d9d6122; 0xfde5380c;
    0xa4beea44; 0x4bdecfa9; 0xf6bb4b60; 0xbebfbc70;
    0x289b7ec6; 0xeaa127fa; 0xd4ef3085; 0x04881d05;
    0xd9d4d039; 0xe6db99e5; 0x1fa27cf8; 0xc4ac5665;
    0xf4292244; 0x432aff97; 0xab9423a7; 0xfc93a039;
    0x655b59c3; 0x8f0ccc92; 0xffeff47d; 0x85845dd1;
    0x6fa87e4f; 0xfe2ce6e0; 0xa3014314; 0x4e0811a1;
    0xf7537e82; 0xbd3af235; 0x2ad7d2bb; 0xeb86d391 ].

(** Per-round left rotations. *)
Definition R : list Z :=
  [ 7; 12; 17; 22; 7; 12; 17; 22; 7; 12; 17; 22; 7; 12; 17; 22;
    5;  9; 14; 20; 5;  9; 14; 20; 5;  9; 14; 20; 5;  9; 14; 20;
    4; 11; 16; 23; 4; 11; 16; 23; 4; 11; 16; 23; 4; 11; 16; 23;
    6; 10; 15; 21; 6; 10; 15; 21; 6; 10; 15; 21; 6; 10; 15; 21 ].

Definition at_ (l : list Z) (i : Z) : Z := List.nth (Z.to_nat i) l 0.

(** The four chaining words. *)
Record digest_state := mkDigest { dA : Z; dB : Z; dC : Z; dD : Z }.

Definition init : digest_state :=
  mkDigest 0x67452301 0xefcdab89 0x98badcfe 0x10325476.

(** One of the 64 operations on the 16 words [M] of a block. *)
Definition step (M : list Z) (st : digest_state) (i : Z) : digest_state :=
  let '(mkDigest a b c d) := st in
  let '(f, g) :=
    if i <? 16 then (Z.lor (Z.land b c) (Z.land (not32 b) d), i)
    else if i <? 32 then (Z.lor (Z.land d b) (Z.land (not32 d) c), (5 * i + 1) mod 16)
    else if i <? 48 then (Z.lxor (Z.lxor b c) d, (3 * i + 5) mod 16)
    else (Z.lxor c (Z.lor b (not32 d)), (7 * i) mod 16) in
  let f' := add32 (add32 (add32 f a) (at_ K i)) (at_ M g) in
  mkDigest d (add32 b (rotl32 f' (at_ R i))) b c.

(** Little-endian words of a sequence of bytes. *)
Fixpoint words (bs : list Z) : list Z :=
  match bs with
  | b0 :: b1 :: b2 :: b3 :: rest =>
      (b0 + 2 ^ 8 * b1 + 2 ^ 16 * b2 + 2 ^ 24 * b3) :: words rest
  | _ => []
  end.

Definition rounds : list Z := List.map Z.of_nat (List.seq 0 64).

Definition compress (st : digest_state) (block : list Z) : digest_state :=
  let M := words block in
  let '(mkDigest a b c d) := List.fold_left (step M) rounds st in
  mkDigest (add32 (dA st) a) (add32 (dB st) b) (add32 (dC st) c) (add32 (dD st) d).

(** [n] bytes of [x], least significant first. *)
Fixpoint le_bytes (n : nat) (x : Z) : list Z :=
  match n with
  | O => []
  | S k => (x mod 256) :: le_bytes k (x / 256)
  end.

(** Padding: a one bit, zeros up to 56 modulo 64, the bit length on
    eight bytes. *)
Definition pad (msg : list Z) : list Z :=
  let n := Z.of_nat (List.length msg) in
  msg ++ [0x80] ++ List.repeat 0 (Z.to_nat ((55 - n) mod 64))
      ++ le_bytes 8 ((8 * n) mod 2 ^ 64).

Fixpoint blocks (count : nat) (st : digest_state) (bs : list Z) : digest_state :=
  match count with
  | O => st
  | S k => blocks k (compress st (List.firstn 64 bs)) (List.skipn 64 bs)
  end.

Definition hex_digit (n : Z) : ascii :=
  List.nth (Z.to_nat n)
    ["0"; "1"; "2"; "3"; "4"; "5"; "6"; "7"; "8"; "9"; "a"; "b"; "c"; "d"; "e"; "f"]%char
    "0"%char.

Definition hex_byte (b : Z) : string :=
  String (hex_digit (b / 16)) (String (hex_digit (b mod 16)) "").

Definition hex (bs : list Z) : string :=
  List.fold_right (fun b acc => hex_byte b +:+ acc) ""%string bs.

(** [hashlib.md5(data).hexdigest()] *)
Definition md5 (data : list byte) : string :=
  let padded := pad (List.map (fun b => Z.of_N (Byte.to_N b)) data) in
  let st := blocks (List.length padded / 64)%nat init padded in
  hex (le_bytes 4 (dA st) ++ le_bytes 4 (dB st) ++ le_bytes 4 (dC st) ++ le_bytes 4 (dD st)).

(** The bytes of an ASCII text, as read from a file opened in ['rb']
    mode. *)
Definition encode (s : string) : list byte := list_byte_of_string s.

(** The bytes written as hexadecimal text ([bytes.fromhex]). *)
Definition hex_value (c : ascii) : N :=
  let n := N_of_ascii c in
  if (48 <=? n)%N && (n <=? 57)%N then (n - 48)%N
  else if (97 <=? n)%N && (n <=? 102)%N then (n - 87)%N
  else 0%N.

Fixpoint fromhex (s : string) : list byte :=
  match s with
  | String h (String l rest) =>
      match Byte.of_N (16 * hex_value h + hex_value l)%N with
      | Some b => b :: fromhex rest
      | None => fromhex rest
      end
  | _ => []
  end.

End Hashlib.


(* ===================================================================== *)
(** ** The world the script runs in                                      *)
(* ===================================================================== *)

Import PathLib.

(** Python exceptions, by class, with the text [str(e)] gives.  The
    first four are [Exception] and three of its subclasses; [SystemExit]
    (what [sys.exit] raises) and [KeyboardInterrupt] derive from
    [BaseException] only. *)
Inductive exn : Type :=
| ImportError (msg : string)
| ValueError (msg : string)
| OSError (msg : string)
| Exception (msg : string)
| SystemExit (code : Z)
| KeyboardInterrupt.

(** [isinstance(e, Exception)] *)
Definition is_Exception (e : exn) : bool :=
  match e with
  | ImportError _ | ValueError _ | OSError _ | Exception _ => true
  | SystemExit _ | KeyboardInterrupt => false
  end.

(** The decimal text of a natural number and of an integer. *)
Fixpoint digits_of (fuel : nat) (n : N) (acc : string) : string :=
  match fuel with
  | O => acc
  | S k =>
      let acc' := String (ascii_of_N (48 + n mod 10)) acc in
      if (n <? 10)%N then acc' else digits_of k (n / 10)%N acc'
  end.

Definition str_Z (z : Z) : string :=
  let n := Z.to_N (Z.abs z) in
  let d := digits_of (S (N.to_nat (N.log2 n))) n "" in
  if (z <? 0)%Z then String "-"%char d else d.

Definition str_exn (e : exn) : string :=
  match e with
  | ImportError m | ValueError m | OSError m | Exception m => m
  | SystemExit code => str_Z code
  | KeyboardInterrupt => ""
  end.

(** A call either returns or raises. *)
Inductive outcome (A : Type) : Type :=
| Return (a : A)
| Raise (e : exn).
Arguments Return {A} a.
Arguments Raise {A} e.

(** What a path names on disk: a regular file that can be read, with
    its bytes; a directory; or a file that [open] refuses to read (no
    read permission). *)
Inductive node : Type :=
| File (content : list byte)
| Dir
| Unreadable.

(** The file system as the operating system answers for a path string. *)
Abbreviation FS := (gmap string node).

(** One call of the Console Reporter (or a plain [print]). *)
Inductive output : Type :=
| Clear
| Header (module_name started : string)
| Success (message : string)
| Error (message : string)
| Line (text : string)
| Logo (version : string)
| Help
| Usage
| Traceback (e : exn).

(** The collaborators the script does not implement: the import system,
    path resolution against the disk, the working directory and the
    clock. *)
Class Runtime : Type := {
  Handle : Type;
  import_module : list string -> FS -> string -> outcome Handle;
  reload : list string -> FS -> Handle -> outcome Handle;
  resolve : FS -> Path -> Path;
  cwd : Path;
  strftime : string;
}.

Section Script.

Context `{RT : Runtime}.

(** Global state outside the reloader object: the disk, [sys.path],
    the console, plus three spies kept for the statements: the paths
    whose bytes were hashed, the handles given to the callback, and the
    number of calls of [reload_module]. *)
Record World : Type := mkWorld {
  fs : FS;
  sys_path : list string;
  stdout : list output;
  hashed : list string;
  called : list Handle;
  reloads : nat;
}.

(** The attributes of a [CodeReloader] once [__init__] has returned
    (the observer is the file-watch collaborator and has no field). *)
Record CodeReloader : Type := mkReloader {
  target_module : string;
  callback : option (Handle -> outcome unit);
  module : option Handle;
  file_hashes : gmap string string;
  watch_path : Path;
  show_ui : bool;
  clear_on_reload : bool;
  module_name : string;
  module_file_path : Path;
}.

Definition set_fs (f : FS) (w : World) : World :=
  mkWorld f (sys_path w) (stdout w) (hashed w) (called w) (reloads w).
Definition set_sys_path (sp : list string) (w : World) : World :=
  mkWorld (fs w) sp (stdout w) (hashed w) (called w) (reloads w).
Definition print (o : output) (w : World) : World :=
  mkWorld (fs w) (sys_path w) (stdout w ++ [o]) (hashed w) (called w) (reloads w).
Definition log_hashed (p : string) (w : World) : World :=
  mkWorld (fs w) (sys_path w) (stdout w) (hashed w ++ [p]) (called w) (reloads w).
Definition log_called (h : Handle) (w : World) : World :=
  mkWorld (fs w) (sys_path w) (stdout w) (hashed w) (called w ++ [h]) (reloads w).
Definition count_reload (w : World) : World :=
  mkWorld (fs w) (sys_path w) (stdout w) (hashed w) (called w) (S (reloads w)).

Definition set_module (m : option Handle) (r : CodeReloader) : CodeReloader :=
  mkReloader (target_module r) (callback r) m (file_hashes r) (watch_path r)
             (show_ui r) (clear_on_reload r) (module_name r) (module_file_path r).
Definition set_file_hashes (t : gmap string string) (r : CodeReloader) : CodeReloader :=
  mkReloader (target_module r) (callback r) (module r) t (watch_path r)
             (show_ui r) (clear_on_reload r) (module_name r) (module_file_path r).

(** *** The monad: a method runs on the object and the world, and
    returns or raises; what it mutated before raising stays mutated. *)

Definition M (A : Type) : Type :=
  CodeReloader * World -> outcome A * (CodeReloader * World).

Definition ret {A} (a : A) : M A := fun st => (Return a, st).

Definition bind {A B} (m : M A) (k : A -> M B) : M B :=
  fun st =>
    match m st with
    | (Return a, st') => k a st'
    | (Raise e, st') => (Raise e, st')
    end.

Definition raise {A} (e : exn) : M A := fun st => (Raise e, st).

(** [try: body  except Exception as e: handler]: the handler runs for
    the instances of [Exception]; anything else goes on to the caller. *)
Definition try_except {A} (body : M A) (handler : exn -> M A) : M A :=
  fun st =>
    match body st with
    | (Return a, st') => (Return a, st')
    | (Raise e, st') => if is_Exception e then handler e st' else (Raise e, st')
    end.

Definition get_self : M CodeReloader := fun st => (Return (fst st), st).
Definition get_world : M World := fun st => (Return (snd st), st).
Definition update_self (f : CodeReloader -> CodeReloader) : M unit :=
  fun st => (Return tt, (f (fst st), snd st)).
Definition update_world (f : World -> World) : M unit :=
  fun st => (Return tt, (fst st, f (snd st))).

(** A collaborator's answer enters the monad as it is. *)
Definition lift {A} (o : outcome A) : M A := fun st => (o, st).

Definition when (b : bool) (m : M unit) : M unit := if b then m else ret tt.

End Script.

Declare Scope py_scope.
Delimit Scope py_scope with py.
Notation "x <- m ;; k" := (bind m (fun x => k))
  (at level 100, m at next level, right associativity) : py_scope.
Notation "m ;;; k" := (bind m (fun _ => k))
  (at level 100, right associativity) : py_scope.

Local Open Scope py_scope.

(* ===================================================================== *)
(** ** The script                                                        *)
(* ===================================================================== *)

Definition VERSION : string := "1.0.0".

(** The line feed of the message literals. *)
Definition nl : string := String "010"%char "".

(** [os.path.exists(p)] and [Path.exists()]. *)
Definition exists_ (f : FS) (p : string) : bool :=
  match f !! p with
  | Some _ => true
  | None => false
  end.

Section Reloader.

Context `{RT : Runtime}.

(** *** class ConsoleUI *)

Definition clear_console : M unit := update_world (print Clear).
Definition print_header (name : string) : M unit :=
  update_world (print (Header name strftime)).
Definition print_success (message : string) : M unit :=
  update_world (print (Success message)).
Definition print_error (message : string) : M unit :=
  update_world (print (Error message)).

(** *** class CodeReloader *)

Definition base_paths : list Path := [Path_ ""; Path_ "Utils"].

(** The list built by the first loop of [_verify_module_exists]. *)
Definition possible_paths (target : string) : list Path :=
  let module_path := Path_ target in
  let name := stem module_path in
  List.fold_left
    (fun acc base =>
       acc ++ [ truediv base (name +:+ ".py");
                truediv (truediv base name) "__init__.py";
                truediv base (str module_path +:+ ".py") ])
    base_paths [].

(** The second loop: the first path of the list that exists. *)
Fixpoint first_existing (f : FS) (paths : list Path) : option Path :=
  match paths with
  | [] => None
  | path :: rest => if exists_ f (str path) then Some path else first_existing f rest
  end.

(** File path to module notation. *)
Definition dotted_name (path : Path) : outcome string :=
  match with_suffix_empty path with
  | None => Raise (ValueError (str path +:+ " has an empty name"))
  | Some q =>
      let n := PyStr.replace (str q) sep "." in
      Return (if PyStr.startswith n "." then PyStr.from n 1 else n)
  end.

Definition not_found_message (target : string) (paths : list Path) : string :=
  "Could not find module '" +:+ target +:+ "'. Searched in:" +:+ nl
  +:+ PyStr.join nl (List.map (fun p => "- " +:+ str p) paths)
  +:+ nl +:+ nl
  +:+ "Make sure the file exists in either the current directory or the Utils directory.".

(** [_verify_module_exists]: the module name and the file path it
    stores, or the [ImportError] it raises. *)
Definition _verify_module_exists (target : string) (f : FS) : outcome (string * Path) :=
  let paths := possible_paths target in
  match first_existing f paths with
  | Some path =>
      match dotted_name path with
      | Return name => Return (name, path)
      | Raise e => Raise e
      end
  | None => Raise (ImportError (not_found_message target paths))
  end.

(** [CodeReloader.__init__] *)
Definition __init__ (target : string) (cb : option (Handle -> outcome unit))
    (ui clear : bool) (w : World) : outcome CodeReloader * World :=
  match _verify_module_exists target (fs w) with
  | Raise e => (Raise e, w)
  | Return (name, path) =>
      (Return (mkReloader target cb None ∅ cwd ui clear name path),
       if ui then print (Header name strftime) w else w)
  end.

(** [open(filepath, 'rb')], [read], [md5], [hexdigest].  [open] raises
    an [OSError] (of the subclass [IsADirectoryError], [PermissionError]
    or [FileNotFoundError]) on anything but a file it can read.  The
    disk changes between the calls of the handler only, so what
    [os.path.exists] saw is still there when [open] runs. *)
Definition _get_file_hash (filepath : string) : M string :=
  w <- get_world;;
  match fs w !! filepath with
  | Some (File content) =>
      update_world (log_hashed filepath);;;
      ret (Hashlib.md5 content)
  | Some Dir => raise (OSError ("Is a directory: " +:+ filepath))
  | Some Unreadable => raise (OSError ("Permission denied: " +:+ filepath))
  | None => raise (OSError ("No such file or directory: " +:+ filepath))
  end.

Definition _has_file_changed (filepath : string) : M bool :=
  w <- get_world;;
  if negb (exists_ (fs w) filepath) then ret false
  else
    current_hash <- _get_file_hash filepath;;
    self <- get_self;;
    match file_hashes self !! filepath with
    | None =>
        update_self (set_file_hashes (<[filepath := current_hash]> (file_hashes self)));;;
        ret true
    | Some recorded =>
        if negb (String.eqb current_hash recorded) then
          update_self (set_file_hashes (<[filepath := current_hash]> (file_hashes self)));;;
          ret true
        else ret false
    end.

Definition paths_to_add (self : CodeReloader) : list string :=
  [ str (watch_path self); str (truediv (watch_path self) "Utils") ].

(** One turn of the loop of [_add_current_dir_to_path]. *)
Definition add_to_path (w : World) (path : string) : World :=
  if exists_ (fs w) path && negb (bool_decide (path ∈ sys_path w))
  then set_sys_path (path :: sys_path w) w
  else w.

Definition _add_current_dir_to_path : M unit :=
  self <- get_self;;
  update_world (fun w => List.fold_left add_to_path (paths_to_add self) w).

(** The two lines of the [except] branch; the second one formats a
    path and raises [ValueError] when that path has an empty name. *)
Definition report_failure (e : exn) : M unit :=
  self <- get_self;;
  when (show_ui self)
    (print_error ("Error reloading " +:+ module_name self +:+ ": " +:+ str_exn e);;;
     match with_suffix_py (Path_ (PyStr.replace (module_name self) "." sep)) with
     | Some p => print_error ("Module path: " +:+ str p)
     | None => raise (ValueError "empty name")
     end).

(** The body of the [try] of [reload_module]. *)
Definition reload_body : M unit :=
  self <- get_self;;
  when (clear_on_reload self)
    (clear_console;;;
     when (show_ui self) (print_header (module_name self)));;;
  _add_current_dir_to_path;;;
  w <- get_world;;
  (match module self with
   | None =>
       h <- lift (import_module (sys_path w) (fs w) (module_name self));;
       update_self (set_module (Some h))
   | Some old =>
       h <- lift (reload (sys_path w) (fs w) old);;
       update_self (set_module (Some h))
   end);;;
  self' <- get_self;;
  (match callback self', module self' with
   | Some f, Some h => update_world (log_called h);;; lift (f h)
   | _, _ => ret tt
   end);;;
  when (show_ui self')
    (print_success ("Successfully reloaded " +:+ module_name self' +:+ " at " +:+ strftime)).

Definition reload_module : M unit :=
  update_world count_reload;;;
  try_except reload_body report_failure.

(** *** class FileChangeHandler *)

Definition on_modified (src_path : string) : M unit :=
  if PyStr.endswith src_path ".py" then
    self <- get_self;;
    w <- get_world;;
    let event_path := resolve (fs w) (Path_ src_path) in
    let module_path := resolve (fs w) (module_file_path self) in
    if bool_decide (event_path = module_path) then
      changed <- _has_file_changed (str event_path);;
      if changed then reload_module else ret tt
    else ret tt
  else ret tt.

(** *** The watch loop *)

(** What happens while the main thread sleeps: the disk changes, and
    the observer thread delivers notifications, one at a time. *)
Inductive action : Type :=
| Write (path : string) (content : list byte)
| Remove (path : string)
| Modified (src_path : string).

(** The run of the observer thread over what happens.  An exception
    that leaves a handler ends the thread: [bind] stops there. *)
Fixpoint dispatch (acts : list action) : M unit :=
  match acts with
  | [] => ret tt
  | Write p content :: rest =>
      update_world (fun w => set_fs (<[p := File content]> (fs w)) w);;; dispatch rest
  | Remove p :: rest =>
      update_world (fun w => set_fs (delete p (fs w)) w);;; dispatch rest
  | Modified src :: rest => on_modified src;;; dispatch rest
  end.

(** [watch_and_reload], from its call to the interrupt that follows
    [acts], the observer thread having started: scheduling and starting
    the observer are calls of the file-watch collaborator, and a run in
    which they fail is not a run of this function.  It returns nothing
    in Python; the reloader is returned here so that statements can
    speak of it. *)
Definition watch_and_reload (target : string) (cb : option (Handle -> outcome unit))
    (ui clear : bool) (acts : list action) (w : World) : outcome CodeReloader * World :=
  let target := PyStr.replace target ".py" "" in
  match __init__ target cb ui clear w with
  | (Raise e, w') => (Raise e, w')
  | (Return reloader, w') =>
      let '(_, (reloader', w'')) := dispatch acts (reloader, w') in
      (Return reloader', if ui then print (Line "Stopping file watch...") w'' else w'')
  end.

(** *** The [__main__] block, after [parse_args] *)

Record Namespace : Type := mkArgs {
  arg_module : option string;
  arg_version : bool;
  arg_noUI : bool;
  arg_clear : bool;
}.

(** The exit code of the process and the world it leaves. *)
Definition main (args : Namespace) (acts : list action) (w : World) : Z * World :=
  if arg_version args then (0%Z, print (Logo VERSION) w)
  else
    match arg_module args with
    | None | Some EmptyString => (1%Z, print Help w)
    | Some m =>
        let name := PyStr.replace m ".py" "" in
        match watch_and_reload name None (negb (arg_noUI args)) (arg_clear args) acts w with
        | (Return _, w') => (0%Z, w')
        | (Raise (ImportError msg), w') => (1%Z, print (Error msg) w')
        | (Raise KeyboardInterrupt, w') => (0%Z, print (Line "Stopping hot reload...") w')
        | (Raise (SystemExit code), w') => (code, w')
        | (Raise e, w') => (1%Z, print (Traceback e) w')
        end
    end.

(** *** [parser.parse_args()]

    The parser of the [__main__] block is [argparse.ArgumentParser] with
    an optional positional [module] ([nargs='?']) and the flags
    [-v]/[--version], [-noUI] and [-c]/[--clear], all of them
    [store_true]; [-h]/[--help] is the option the parser adds by itself,
    whose action prints the help and exits with code 0 as soon as it is
    taken.  What follows is [parse_args] of CPython 3.11 specialised to
    this parser: every option takes no argument, the prefix character
    is the dash, abbreviations are allowed.  The words of the command
    line are ASCII text. *)

(** The actions of the options. *)
Inductive flag : Type := FHelp | FVersion | FNoUI | FClear.

(** [parser._option_string_actions], in the order of declaration. *)
Definition option_strings : list (string * flag) :=
  [ ("-h", FHelp); ("--help", FHelp); ("-v", FVersion); ("--version", FVersion);
    ("-noUI", FNoUI); ("-c", FClear); ("--clear", FClear) ].

Fixpoint lookup_option (opts : list (string * flag)) (o : string) : option flag :=
  match opts with
  | [] => None
  | (k, a) :: rest => if String.eqb k o then Some a else lookup_option rest o
  end.

(** [s.split('=', 1)] when ['=' in s]. *)
Fixpoint split_eq (s : string) : option (string * string) :=
  match s with
  | EmptyString => None
  | String c s' =>
      if Ascii.eqb c "=" then Some ("", s')
      else match split_eq s' with
           | Some (a, b) => Some (String c a, b)
           | None => None
           end
  end.

(** [s[1] in '-'] *)
Definition second_is_dash (s : string) : bool :=
  match s with
  | String _ (String "-" _) => true
  | _ => false
  end.

(** The matcher [^-\d+$|^-\d*\.\d+$]; [$] also matches before a final
    line feed. *)
Definition is_digit (c : ascii) : bool :=
  let n := N_of_ascii c in (48 <=? n)%N && (n <=? 57)%N.

Fixpoint all_digits (s : string) : bool :=
  match s with
  | EmptyString => true
  | String c s' => is_digit c && all_digits s'
  end.

Fixpoint drop_digits (s : string) : string :=
  match s with
  | EmptyString => ""
  | String c s' => if is_digit c then drop_digits s' else s
  end.

Fixpoint chomp (s : string) : string :=
  match s with
  | EmptyString => ""
  | String "010" EmptyString => ""
  | String c s' => String c (chomp s')
  end.

Definition negative_number (t : string) : bool :=
  match t with
  | String "-" body =>
      let body := chomp body in
      (negb (String.eqb body "") && all_digits body)
      || match drop_digits body with
         | String "." frac => negb (String.eqb frac "") && all_digits frac
         | _ => false
         end
  | _ => false
  end.

Fixpoint contains_space (s : string) : bool :=
  match s with
  | EmptyString => false
  | String c s' => Ascii.eqb c " " || contains_space s'
  end.

(** What [_parse_optional] says of a word: a positional ([None]), an
    option with its option string, its action and the explicit argument
    glued to it, no such option ([(None, arg_string, None)]), or an
    ambiguous abbreviation, which is an error of the parser. *)
Inductive optional : Type :=
| NotOptional
| Optional (option_string : string) (action : flag) (explicit_arg : option string)
| NoSuchOption
| AmbiguousOption.

Definition _get_option_tuples (t : string) : list (string * flag * option string) :=
  if second_is_dash t then
    let '(option_prefix, explicit_arg) :=
      match split_eq t with
      | Some (p, e) => (p, Some e)
      | None => (t, None)
      end in
    omap (fun '(k, a) => if String.prefix option_prefix k then Some (k, a, explicit_arg) else None)
         option_strings
  else
    omap (fun '(k, a) =>
            if String.eqb k (String.substring 0 2 t)
            then Some (k, a, Some (String.substring 2 (String.length t - 2) t))
            else if String.prefix t k then Some (k, a, None)
            else None)
         option_strings.

Definition _parse_optional (t : string) : optional :=
  match t with
  | EmptyString => NotOptional
  | String c _ =>
      if negb (Ascii.eqb c "-") then NotOptional
      else
        match lookup_option option_strings t with
        | Some a => Optional t a None
        | None =>
            if (String.length t =? 1)%nat then NotOptional
            else
              let exact :=
                match split_eq t with
                | Some (o, e) =>
                    match lookup_option option_strings o with
                    | Some a => Some (Optional o a (Some e))
                    | None => None
                    end
                | None => None
                end in
              match exact with
              | Some found => found
              | None =>
                  match _get_option_tuples t with
                  | _ :: _ :: _ => AmbiguousOption
                  | [(k, a, e)] => Optional k a e
                  | [] =>
                      if negative_number t then NotOptional
                      else if contains_space t then NotOptional
                      else NoSuchOption
                  end
              end
        end
  end.

(** The short options read out of the tail of a word ([-cv] is [-c]
    [-v]); nothing when a character is not a short option. *)
Fixpoint cluster (explicit_arg : string) : option (list flag) :=
  match explicit_arg with
  | EmptyString => Some []
  | String ch rest =>
      match lookup_option option_strings (String "-" (String ch "")) with
      | Some a =>
          match cluster rest with
          | Some acts => Some (a :: acts)
          | None => None
          end
      | None => None
      end
  end.

(** The loop of [consume_optional] for an option that takes no
    argument: the actions to take, or nothing when the parser raises
    [ArgumentError] (an explicit argument that is ignored). *)
Definition consume_optional (option_string : string) (action : flag)
    (explicit_arg : option string) : option (list flag) :=
  match explicit_arg with
  | None => Some [action]
  | Some e =>
      if negb (second_is_dash option_string) && negb (String.eqb e "") then
        match cluster e with
        | Some acts => Some (action :: acts)
        | None => None
        end
      else None
  end.

(** What [parse_args] does: it returns the arguments, or it exits after
    the help (code 0), or after a usage error (code 2). *)
Inductive parsed : Type :=
| Parsed (args : Namespace)
| HelpExit
| UsageError.

(** [take_action] on the actions of one word, in order; nothing when
    the help action exits. *)
Fixpoint take_actions (acts : list flag) (args : Namespace) : option Namespace :=
  match acts with
  | [] => Some args
  | FHelp :: _ => None
  | FVersion :: rest =>
      take_actions rest (mkArgs (arg_module args) true (arg_noUI args) (arg_clear args))
  | FNoUI :: rest =>
      take_actions rest (mkArgs (arg_module args) (arg_version args) true (arg_clear args))
  | FClear :: rest =>
      take_actions rest (mkArgs (arg_module args) (arg_version args) (arg_noUI args) true)
  end.

Definition is_option_word (t : string) : bool :=
  match _parse_optional t with
  | NotOptional => false
  | _ => true
  end.

Definition is_ambiguous (t : string) : bool :=
  match _parse_optional t with
  | AmbiguousOption => true
  | _ => false
  end.

(** The words before the first [--]: the only ones read as options. *)
Fixpoint front (argv : list string) : list string :=
  match argv with
  | [] => []
  | t :: rest => if String.eqb t "--" then [] else t :: front rest
  end.

(** The last call of [consume_positionals], on what follows the last
    option: [module] matches [-*A?-*], that is one word with a [--]
    before or after it; nothing is returned when words are left over.
    A [module] consumed before matches nothing more. *)
Definition consume_last (args : Namespace) (rest : list string) : option Namespace :=
  let given (m : string) := mkArgs (Some m) (arg_version args) (arg_noUI args) (arg_clear args) in
  match arg_module args with
  | Some _ =>
      match rest with
      | [] => Some args
      | _ => None
      end
  | None =>
      match rest with
      | [] => Some args
      | [a] => if String.eqb a "--" then Some args else Some (given a)
      | [a; b] =>
          if String.eqb a "--" then Some (given b)
          else if String.eqb b "--" then Some (given a)
          else None
      | _ => None
      end
  end.

(** The end of [_parse_known_args] and of [parse_args]: the last
    positionals are consumed; a word left over, or one put aside as
    unrecognized on the way ([extras]), is a usage error. *)
Definition finish (args : Namespace) (argv : list string) (extras : bool) : parsed :=
  match consume_last args argv with
  | Some args' => if extras then UsageError else Parsed args'
  | None => UsageError
  end.

(** The loop of [_parse_known_args] over the words left to read, as
    long as an option is among them: a positional is consumed by
    [module] if it has not consumed one yet and put aside otherwise; an
    option has its actions taken, in order. *)
Fixpoint parse_loop (argv : list string) (args : Namespace) (extras : bool) : parsed :=
  match argv with
  | [] => finish args [] extras
  | t :: rest =>
      if existsb is_option_word (front argv) then
        match _parse_optional t with
        | NotOptional =>
            match arg_module args with
            | None =>
                parse_loop rest
                  (mkArgs (Some t) (arg_version args) (arg_noUI args) (arg_clear args)) extras
            | Some _ => parse_loop rest args true
            end
        | NoSuchOption => parse_loop rest args true
        | AmbiguousOption => UsageError
        | Optional o a e =>
            match consume_optional o a e with
            | None => UsageError
            | Some acts =>
                match take_actions acts args with
                | None => HelpExit
                | Some args' => parse_loop rest args' extras
                end
            end
        end
      else finish args argv extras
  end.

(** An ambiguous abbreviation is reported when the words are
    classified, before any action is taken. *)
Definition parse_args (argv : list string) : parsed :=
  if existsb is_ambiguous (front argv) then UsageError
  else parse_loop argv (mkArgs None false false false) false.

(** The script run on a command line: the exit code of the process and
    the world it leaves.  On a usage error the parser prints the usage
    and the error and exits with code 2. *)
Definition hot_reload (argv : list string) (acts : list action) (w : World) : Z * World :=
  match parse_args argv with
  | Parsed args => main args acts w
  | HelpExit => (0%Z, print Help w)
  | UsageError => (2%Z, print Usage w)
  end.

(** *** Vocabulary of the statements

    Runs of the methods above that the properties speak of. *)

(** The loop of [_add_current_dir_to_path] over any list of roots. *)
Definition register (roots : list string) (w : World) : World :=
  List.fold_left add_to_path roots w.

(** [n] registrations in a row. *)
Fixpoint registrations (n : nat) : M unit :=
  match n with
  | O => ret tt
  | S k => _add_current_dir_to_path;;; registrations k
  end.

(** What [reload_module] does before it calls the import system: it
    counts the call, clears and prints the header if asked to, and
    registers the search roots. *)
Definition announce (self : CodeReloader) (w : World) : World :=
  if clear_on_reload self then
    let w' := print Clear w in
    if show_ui self then print (Header (module_name self) strftime) w' else w'
  else w.

Definition prepared (self : CodeReloader) (w : World) : World :=
  register (paths_to_add self) (announce self (count_reload w)).

(** The answer of the import system to the load or reload that
    [reload_module] attempts from [self] and [w]. *)
Definition load_attempt (self : CodeReloader) (w : World) : outcome Handle :=
  let w' := prepared self w in
  match module self with
  | None => import_module (sys_path w') (fs w') (module_name self)
  | Some old => reload (sys_path w') (fs w') old
  end.

(** The exception that leaves the [try] body of [reload_module], if
    any: the one of the import system, or else the one of the callback. *)
Definition attempt_error (self : CodeReloader) (w : World) : option exn :=
  match load_attempt self w with
  | Raise e => Some e
  | Return h =>
      match callback self with
      | Some f => match f h with Raise e => Some e | Return _ => None end
      | None => None
      end
  end.

(** The path of the second failure line. *)
Definition failure_path (self : CodeReloader) : option Path :=
  with_suffix_py (Path_ (PyStr.replace (module_name self) "." sep)).

(** No notification is delivered during [acts]. *)
Fixpoint no_notification (acts : list action) : bool :=
  match acts with
  | [] => true
  | Modified _ :: _ => false
  | _ :: rest => no_notification rest
  end.



(** The world after [n] hash computations of the same path. *)
Fixpoint logged (n : nat) (filepath : string) (w : World) : World :=
  match n with
  | O => w
  | S k => logged k filepath (log_hashed filepath w)
  end.



(** Everything in a reloader but the console flag, and everything in a
    world but the console. *)
Definition quiet_self (r : CodeReloader) :=
  (target_module r, callback r, module r, file_hashes r, watch_path r,
   clear_on_reload r, module_name r, module_file_path r).

Definition quiet_world (w : World) :=
  (fs w, sys_path w, hashed w, called w, reloads w).

Definition same_but_console (st1 st2 : CodeReloader * World) : Prop :=
  quiet_self (fst st1) = quiet_self (fst st2) /\ quiet_world (snd st1) = quiet_world (snd st2).

(** Whether a notification for [src_path] gets as far as calling
    [reload_module]: the extension, the path comparison and the digest
    check all pass. *)
Definition fires (src_path : string) (self : CodeReloader) (w : World) : bool :=
  PyStr.endswith src_path ".py"
  && bool_decide (resolve (fs w) (Path_ src_path) = resolve (fs w) (module_file_path self))
  && match fs w !! str (resolve (fs w) (Path_ src_path)) with
     | Some (File content) =>
         negb (bool_decide (file_hashes self !! str (resolve (fs w) (Path_ src_path))
                            = Some (Hashlib.md5 content)))
     | _ => false
     end.

(** The digest table a change check of [filepath] leaves. *)
Definition digests_after (filepath : string) (self : CodeReloader) (w : World)
  : gmap string string :=
  match fs w !! filepath with
  | Some (File content) => <[filepath := Hashlib.md5 content]> (file_hashes self)
  | _ => file_hashes self
  end.

(** [new] is [old] with entries put in front of it: entries of
    [roots], none of them in [old], none of them twice. *)
Definition extends_by (roots old new : list string) : Prop :=
  exists added : list string,
    new = added ++ old
    /\ NoDup added
    /\ forall p : string, p ∈ added -> p ∈ roots /\ p ∉ old.

(** What stays fixed in a reloader for the whole of a run. *)
Definition config (r : CodeReloader) :=
  (target_module r, callback r, watch_path r, show_ui r, clear_on_reload r,
   module_name r, module_file_path r).

(** The lines one call of [reload_module] prints: before the attempt,
    on a failure, and after the attempt. *)
Definition announce_lines (self : CodeReloader) : list output :=
  if clear_on_reload self then
    Clear :: (if show_ui self then [Header (module_name self) strftime] else [])
  else [].

Definition failure_lines (self : CodeReloader) (e : exn) : list output :=
  Error ("Error reloading " +:+ module_name self +:+ ": " +:+ str_exn e)
  :: match failure_path self with
     | Some p => [Error ("Module path: " +:+ str p)]
     | None => []
     end.



(** The disks the notifications of [acts] find, in order, when the
    disk is [f] at first. *)
Fixpoint notified_disks (acts : list action) (f : FS) : list FS :=
  match acts with
  | [] => []
  | Write p content :: rest => notified_disks rest (<[p := File content]> f)
  | Remove p :: rest => notified_disks rest (delete p f)
  | Modified _ :: rest => f :: notified_disks rest f
  end.

(** The number of notifications in [acts]. *)
Fixpoint notifications (acts : list action) : nat :=
  match acts with
  | [] => 0
  | Modified _ :: rest => S (notifications rest)
  | _ :: rest => notifications rest
  end.

Definition flag_eqb (a b : flag) : bool :=
  match a, b with
  | FHelp, FHelp | FVersion, FVersion | FNoUI, FNoUI | FClear, FClear => true
  | _, _ => false
  end.

(** The flags a word sets when it is read as an option: spelled in
    full, abbreviated, or in a cluster of short options. *)
Definition flags_of (t : string) : list flag :=
  match _parse_optional t with
  | Optional o a e =>
      match consume_optional o a e with
      | Some acts => acts
      | None => []
      end
  | _ => []
  end.

(** The command line holds the flag: a word before the first [--]
    sets it. *)
Definition holds (f : flag) (argv : list string) : bool :=
  existsb (fun t => existsb (flag_eqb f) (flags_of t)) (front argv).

(** The words after the first [--]. *)
Fixpoint after_separator (argv : list string) : list string :=
  match argv with
  | [] => []
  | t :: rest => if String.eqb t "--" then rest else after_separator rest
  end.

(** The words that are not read as options: the targets given. *)
Definition targets (argv : list string) : list string :=
  List.filter (fun t => negb (is_option_word t)) (front argv) ++ after_separator argv.

(** The target the reading starts with, if [module] has one already. *)
Definition given (args : Namespace) : list string :=
  match arg_module args with
  | Some m => [m]
  | None => []
  end.

(** A plain module name: not empty, no slash, no dot. *)
Definition plain (s : string) : bool :=
  negb (String.eqb s "")
  && List.forallb (fun c => negb (Ascii.eqb c "/") && negb (Ascii.eqb c "."))
       (list_ascii_of_string s).

End Reloader.

(* ===================================================================== *)
(** ** A concrete runtime and a concrete disk                            *)
(* ===================================================================== *)

(** A small import system to run the script on: a module is looked up
    under the entries of [sys.path], front first; loading it yields the
    name and the bytes executed; a source that starts with an
    exclamation mark does not compile. *)
Module Demo.

Definition handle : Type := string * list byte.

Definition execute (name : string) (content : list byte) : outcome handle :=
  match content with
  | x21 :: _ => Raise (Exception "invalid syntax")
  | _ => Return (name, content)
  end.

Fixpoint find_module (roots : list string) (f : FS) (rel : string) : option (list byte) :=
  match roots with
  | [] => None
  | d :: rest =>
      match f !! (d +:+ "/" +:+ rel) with
      | Some (File content) => Some content
      | _ => find_module rest f rel
      end
  end.

Definition import_ (roots : list string) (f : FS) (name : string) : outcome handle :=
  if String.eqb name "" then Raise (ValueError "Empty module name")
  else
    match find_module roots f (PyStr.replace name "." "/" +:+ ".py") with
    | Some content => execute name content
    | None => Raise (ImportError ("No module named '" +:+ name +:+ "'"))
    end.

Definition reload_ (roots : list string) (f : FS) (h : handle) : outcome handle :=
  import_ roots f (fst h).

Definition work : Path := Path_ "/work".

(** No symbolic links: a relative path is taken under the working
    directory. *)
Definition resolve_ (f : FS) (p : Path) : Path :=
  if String.eqb (root p) "" then {| root := root work; parts := parts work ++ parts p |}
  else p.

Definition runtime : Runtime :=
  {| Handle := handle;
     import_module := import_;
     reload := reload_;
     resolve := resolve_;
     cwd := work;
     strftime := "12:00:00" |}.

#[local] Existing Instance runtime.

Definition x1 : list byte := Hashlib.encode "X = 1".
Definition x2 : list byte := Hashlib.encode "X = 2".

(** The working directory holds [m.py]; the file answers both to its
    relative and to its absolute path. *)
Definition disk : FS :=
  <["/work" := Dir]> (<["m.py" := File x1]> (<["/work/m.py" := File x1]> ∅)).

Definition world0 : World := mkWorld disk ["/usr/lib/python3"] [] [] [] 0.


(** A callback that ends the interpreter: [sys.exit(3)]. *)
Definition exiting_callback (h : handle) : outcome unit := Raise (SystemExit 3).

(** A callback that accepts every handle. *)
Definition quiet_callback (h : handle) : outcome unit := Return tt.

(** The working directory holds only a file named [..py]. *)
Definition dots_disk : FS :=
  <["/work" := Dir]> (<["..py" := File x1]> (<["/work/..py" := File x1]> ∅)).

Definition dots_world : World := mkWorld dots_disk ["/usr/lib/python3"] [] [] [] 0.

(** The working directory holds [mymod.py] and [my.pymod.py]. *)
Definition two_modules : FS :=
  <["mymod.py" := File x1]> (<["my.pymod.py" := File x2]> ∅).


(** The reloader of [m] as [__init__] leaves it, and the same reloader
    once [m] has been loaded from [x1]. *)
Definition unloaded (cb : option (handle -> outcome unit)) : CodeReloader :=
  mkReloader "m" cb None ∅ work true false "m" (Path_ "m.py").

Definition loaded (cb : option (handle -> outcome unit)) : CodeReloader :=
  mkReloader "m" cb (Some ("m", x1)) ∅ work true false "m" (Path_ "m.py").

(** The working directory holds [m] as a package only. *)
Definition package_disk : FS :=
  <["/work" := Dir]> (<["m" := Dir]> (<["m/__init__.py" := File x1]> ∅)).

(** The working directory has a [Utils] directory, which holds [m.py]. *)
Definition utils_disk : FS :=
  <["/work" := Dir]>
    (<["/work/Utils" := Dir]>
       (<["Utils/m.py" := File x1]> (<["/work/Utils/m.py" := File x1]> ∅))).

(** A reloader of [m] with the console disabled and clearing on reload
    enabled. *)
Definition silent : CodeReloader :=
  mkReloader "m" None None ∅ work false true "m" (Path_ "m.py").

(** Two distinct 128-byte files with the same MD5 digest. *)
Definition collide1 : list byte :=
  Hashlib.fromhex
    ("d131dd02c5e6eec4693d9a0698aff95c2fcab58712467eab4004583eb8fb7f89"
     +:+ "55ad340609f4b30283e488832571415a085125e8f7cdc99fd91dbdf280373c5b"
     +:+ "d8823e3156348f5bae6dacd436c919c6dd53e2b487da03fd02396306d248cda0"
     +:+ "e99f33420f577ee8ce54b67080a80d1ec69821bcb6a8839396f9652b6ff72a70").

Definition collide2 : list byte :=
  Hashlib.fromhex
    ("d131dd02c5e6eec4693d9a0698aff95c2fcab50712467eab4004583eb8fb7f89"
     +:+ "55ad340609f4b30283e4888325f1415a085125e8f7cdc99fd91dbd7280373c5b"
     +:+ "d8823e3156348f5bae6dacd436c919c6dd53e23487da03fd02396306d248cda0"
     +:+ "e99f33420f577ee8ce54b67080280d1ec69821bcb6a8839396f965ab6ff72a70").

(** Command lines, with what [parse_args] of CPython 3.11 answers for
    the parser of the script. *)
Definition parse_args_samples : list (list string * parsed) :=
  [
    (["-h"], HelpExit);
    (["--help"], HelpExit);
    (["-v"], Parsed (mkArgs None true false false));
    (["--version"], Parsed (mkArgs None true false false));
    (["-noUI"], Parsed (mkArgs None false true false));
    (["-c"], Parsed (mkArgs None false false true));
    (["--clear"], Parsed (mkArgs None false false true));
    (["--"], Parsed (mkArgs None false false false));
    (["-"], Parsed (mkArgs (Some "-") false false false));
    (["m"], Parsed (mkArgs (Some "m") false false false));
    (["n.py"], Parsed (mkArgs (Some "n.py") false false false));
    ([""], Parsed (mkArgs (Some "") false false false));
    (["-1"], Parsed (mkArgs (Some "-1") false false false));
    (["-1.5"], Parsed (mkArgs (Some "-1.5") false false false));
    (["-.5"], Parsed (mkArgs (Some "-.5") false false false));
    (["-x"], UsageError);
    (["--x"], UsageError);
    (["-vc"], Parsed (mkArgs None true false true));
    (["-cv"], Parsed (mkArgs None true false true));
    (["-hv"], HelpExit);
    (["-vh"], HelpExit);
    (["-no"], Parsed (mkArgs None false true false));
    (["-n"], Parsed (mkArgs None false true false));
    (["-noU"], Parsed (mkArgs None false true false));
    (["--ver"], Parsed (mkArgs None true false false));
    (["--h"], HelpExit);
    (["--c"], Parsed (mkArgs None false false true));
    (["--="], UsageError);
    (["--=x"], UsageError);
    (["-v="], UsageError);
    (["-v=c"], Parsed (mkArgs None true false true));
    (["--version="], UsageError);
    (["--version=x"], UsageError);
    (["-noUI=c"], Parsed (mkArgs None false true true));
    (["-noUIc"], UsageError);
    (["-v x"], UsageError);
    (["-x y"], Parsed (mkArgs (Some "-x y") false false false));
    (["---"], UsageError);
    (["-="], UsageError);
    (["--he="], UsageError);
    (["-c=vh"], HelpExit);
    (["-1."], UsageError);
    (["-."], UsageError);
    (["-1e5"], UsageError);
    (["--v=c"], UsageError);
    ([("-1" +:+ nl +:+ "")], Parsed (mkArgs (Some ("-1" +:+ nl +:+ "")) false false false));
    ([("-2.5" +:+ nl +:+ "")], Parsed (mkArgs (Some ("-2.5" +:+ nl +:+ "")) false false false));
    ([("-1" +:+ nl +:+ "" +:+ nl +:+ "")], UsageError);
    ([], Parsed (mkArgs None false false false));
    (["m"; "-v"; "--"], UsageError);
    (["-v"; "m"; "--"], Parsed (mkArgs (Some "m") true false false));
    (["-v"; "--"; "m"], Parsed (mkArgs (Some "m") true false false));
    (["--"; "-v"], Parsed (mkArgs (Some "-v") false false false));
    (["--"; "--"], Parsed (mkArgs (Some "--") false false false));
    (["m"; "--"], Parsed (mkArgs (Some "m") false false false));
    (["m"; "--"; "n"], UsageError);
    (["--"; "m"; "n"], UsageError);
    (["m"; "n"], UsageError);
    (["m"; "n"; "-h"], HelpExit);
    (["-x"; "-h"], HelpExit);
    (["-vx"; "-h"], UsageError);
    (["-h"; "-vx"], HelpExit);
    (["-h"; "--=x"], UsageError);
    (["--=x"; "-h"], UsageError);
    (["--"; "--=x"], Parsed (mkArgs (Some "--=x") false false false));
    (["-v"; "m"; "-c"; "-noUI"], Parsed (mkArgs (Some "m") true true true));
    (["m"; "-c"; "n"], UsageError);
    (["-c"; "m"; "-v"; "n"], UsageError);
    (["-"; "-v"], Parsed (mkArgs (Some "-") true false false));
    (["-1"; "-c"], Parsed (mkArgs (Some "-1") false false true));
    (["-c"; "-c"], Parsed (mkArgs None false false true));
    (["--cl"; "--ve"; "-no"; "mod.py"], Parsed (mkArgs (Some "mod.py") true true true));
    (["-cvc"; "x"], Parsed (mkArgs (Some "x") true false true));
    (["x"; "-vh"], HelpExit);
    (["-v"; "--"; "-h"], Parsed (mkArgs (Some "-h") true false false));
    ([""; "-c"], Parsed (mkArgs (Some "") false false true));
    (["-c"; ""], Parsed (mkArgs (Some "") false false true));
    (["m"; "-x y"], UsageError);
    (["-x y"; "-c"], Parsed (mkArgs (Some "-x y") false false true));
    (["-v"; "-x y"; "m"], UsageError)
  ].

End Demo.

(* ===================================================================== *)
(** ** Properties                                                        *)
(* ===================================================================== *)

(** *** The digest function on known values *)

Example md5_empty : Hashlib.md5 [] = "d41d8cd98f00b204e9800998ecf8427e".
Proof. vm_compute. reflexivity. Qed.

Example md5_abc : Hashlib.md5 (Hashlib.encode "abc") = "900150983cd24fb0d6963f7d28e17f72".
Proof. vm_compute. reflexivity. Qed.

Example md5_collision :
  Hashlib.md5 Demo.collide1 = "79054025255fb1a26e4bc422aef54eb4"
  /\ Hashlib.md5 Demo.collide2 = "79054025255fb1a26e4bc422aef54eb4".
Proof. split; vm_compute; reflexivity. Qed.

(** *** The parser on known command lines *)

Example parse_args_on_samples :
  List.map (fun sample => parse_args (fst sample)) Demo.parse_args_samples
  = List.map snd Demo.parse_args_samples.
Proof. vm_compute. reflexivity. Qed.

Opaque Hashlib.md5.

Section Properties.

Context `{RT : Runtime}.

(** *** The Digest Tracker *)

(** The change check at a glance. *)
Lemma has_file_changed_run (key : string) (r : CodeReloader) (w : World) :
  _has_file_changed key (r, w)
  = match fs w !! key with
    | None => (Return false, (r, w))
    | Some Dir => (Raise (OSError ("Is a directory: " +:+ key)), (r, w))
    | Some Unreadable => (Raise (OSError ("Permission denied: " +:+ key)), (r, w))
    | Some (File content) =>
        let updated := set_file_hashes (<[key := Hashlib.md5 content]> (file_hashes r)) r in
        match file_hashes r !! key with
        | None => (Return true, (updated, log_hashed key w))
        | Some recorded =>
            if negb (String.eqb (Hashlib.md5 content) recorded)
            then (Return true, (updated, log_hashed key w))
            else (Return false, (r, log_hashed key w))
        end
    end.
Proof.
  unfold _has_file_changed, _get_file_hash, bind, get_world, get_self, update_self,
    update_world, ret, raise, exists_. simpl.
  destruct (fs w !! key) as [[content | |] |] eqn:E; simpl; rewrite ?E; simpl; try reflexivity.
  destruct (file_hashes r !! key) as [recorded |]; simpl; [| reflexivity].
  now destruct (negb _).
Qed.

(** C3, as the code has it.  The change check, case by case: a missing
    path gives [False] and nothing is touched (no hash is computed, the
    digest table is the same); a path that names a file [open] can read
    and that has no recorded digest gets its digest recorded and gives
    [True]; such a file whose digest differs from the recorded one gets
    the record updated and gives [True]; such a file whose digest is
    the recorded one gives [False] and the table is the same; and a
    path that exists but that [open] cannot read (a directory, a file
    without read permission) gives no answer: the [OSError] of [open]
    leaves the check, and nothing is touched. *)
Theorem has_file_changed_cases (filepath : string) (self : CodeReloader) (w : World) :
  (exists_ (fs w) filepath = false ->
     _has_file_changed filepath (self, w) = (Return false, (self, w)))
  /\ (forall content,
        fs w !! filepath = Some (File content) ->
        file_hashes self !! filepath = None ->
        _has_file_changed filepath (self, w) =
          (Return true,
           (set_file_hashes (<[filepath := Hashlib.md5 content]> (file_hashes self)) self,
            log_hashed filepath w)))
  /\ (forall content recorded,
        fs w !! filepath = Some (File content) ->
        file_hashes self !! filepath = Some recorded ->
        Hashlib.md5 content <> recorded ->
        _has_file_changed filepath (self, w) =
          (Return true,
           (set_file_hashes (<[filepath := Hashlib.md5 content]> (file_hashes self)) self,
            log_hashed filepath w)))
  /\ (forall content,
        fs w !! filepath = Some (File content) ->
        file_hashes self !! filepath = Some (Hashlib.md5 content) ->
        _has_file_changed filepath (self, w) =
          (Return false, (self, log_hashed filepath w)))
  /\ (fs w !! filepath = Some Dir \/ fs w !! filepath = Some Unreadable ->
        exists msg : string,
          _has_file_changed filepath (self, w) = (Raise (OSError msg), (self, w))).
Proof.
  repeat split.
  - intros Hex. rewrite has_file_changed_run. unfold exists_ in Hex.
    now destruct (fs w !! filepath).
  - intros content Hfile Hnone. rewrite has_file_changed_run, Hfile. cbn zeta.
    now rewrite Hnone.
  - intros content recorded Hfile Hsome Hne.
    rewrite has_file_changed_run, Hfile. cbn zeta. rewrite Hsome.
    destruct (String.eqb_spec (Hashlib.md5 content) recorded) as [E | E];
      [contradiction | reflexivity].
  - intros content Hfile Hsome. rewrite has_file_changed_run, Hfile. cbn zeta.
    rewrite Hsome. now rewrite String.eqb_refl.
  - intros [H | H]; rewrite has_file_changed_run, H; eexists; reflexivity.
Qed.

(** *** The Change Watcher *)

(** C6. A notification whose resolved path is not the resolved path of
    the watched file leaves the reloader and the world as they are: no
    call of [reload_module], no hash, same digest table, same
    [sys.path], nothing printed, no callback. *)
Theorem on_modified_other_file (src_path : string) (self : CodeReloader) (w : World) :
  resolve (fs w) (Path_ src_path) <> resolve (fs w) (module_file_path self) ->
  on_modified src_path (self, w) = (Return tt, (self, w)).
Proof.
  intros Hne. unfold on_modified.
  destruct (PyStr.endswith src_path ".py"); [| reflexivity].
  unfold bind, get_self, get_world. simpl.
  rewrite bool_decide_eq_false_2 by exact Hne. reflexivity.
Qed.

(** *** Registration of the search roots *)


Lemma add_to_path_fs (w : World) (p : string) : fs (add_to_path w p) = fs w.
Proof. unfold add_to_path. now destruct (_ && _). Qed.

Lemma add_to_path_mono (w : World) (p q : string) :
  q ∈ sys_path w -> q ∈ sys_path (add_to_path w p).
Proof.
  intros H. unfold add_to_path. destruct (_ && _); [| exact H].
  simpl. now apply list_elem_of_further.
Qed.

Lemma add_to_path_here (w : World) (p : string) :
  exists_ (fs w) p = true -> p ∈ sys_path (add_to_path w p).
Proof.
  intros Hex. unfold add_to_path. rewrite Hex. simpl.
  destruct (bool_decide_reflect (p ∈ sys_path w)) as [Hin | Hout]; simpl.
  - exact Hin.
  - apply list_elem_of_here.
Qed.

Lemma add_to_path_present (w : World) (p : string) :
  (exists_ (fs w) p = true -> p ∈ sys_path w) -> add_to_path w p = w.
Proof.
  intros H. unfold add_to_path.
  destruct (exists_ (fs w) p) eqn:Hex; [| reflexivity]. simpl.
  rewrite bool_decide_eq_true_2 by now apply H. reflexivity.
Qed.

Lemma register_fs (roots : list string) (w : World) : fs (register roots w) = fs w.
Proof.
  revert w. induction roots as [| p roots IH]; intros w; [reflexivity |].
  unfold register in *. simpl. rewrite IH. apply add_to_path_fs.
Qed.

Lemma register_mono (roots : list string) (w : World) (q : string) :
  q ∈ sys_path w -> q ∈ sys_path (register roots w).
Proof.
  revert w. induction roots as [| p roots IH]; intros w H; [exact H |].
  unfold register in *. simpl. apply IH. now apply add_to_path_mono.
Qed.

(** After the loop every root that exists is on the load path. *)
Lemma register_registered (roots : list string) (w : World) (p : string) :
  p ∈ roots -> exists_ (fs w) p = true -> p ∈ sys_path (register roots w).
Proof.
  revert w. induction roots as [| r roots IH]; intros w Hin Hex.
  - inversion Hin.
  - unfold register in *. simpl. apply elem_of_cons in Hin as [-> | Hin].
    + apply (register_mono roots). now apply add_to_path_here.
    + apply IH; [exact Hin |]. now rewrite add_to_path_fs.
Qed.

(** When every root that exists is already there the loop changes
    nothing. *)
Lemma register_fixed (roots : list string) (w : World) :
  (forall p, p ∈ roots -> exists_ (fs w) p = true -> p ∈ sys_path w) ->
  register roots w = w.
Proof.
  induction roots as [| r roots IH]; intros H; [reflexivity |].
  unfold register in *. simpl.
  rewrite add_to_path_present by (apply H; apply list_elem_of_here).
  apply IH. intros p Hp. apply H. now apply list_elem_of_further.
Qed.

Lemma register_idempotent (roots : list string) (w : World) :
  register roots (register roots w) = register roots w.
Proof.
  apply register_fixed. intros p Hp Hex.
  rewrite register_fs in Hex. now apply register_registered.
Qed.

Lemma add_to_path_count (w : World) (p q : string) :
  count_occ string_dec (sys_path (add_to_path w p)) q
  <= Nat.max 1 (count_occ string_dec (sys_path w) q).
Proof.
  unfold add_to_path.
  destruct (exists_ (fs w) p); simpl; [| lia].
  destruct (bool_decide_reflect (p ∈ sys_path w)) as [Hin | Hout]; simpl; [lia |].
  destruct (string_dec p q) as [-> | Hne]; [| lia].
  assert (count_occ string_dec (sys_path w) q = 0) as ->; [| simpl; lia].
  apply count_occ_not_In. intros Hq. apply Hout. now apply list_elem_of_In.
Qed.

Lemma register_count (roots : list string) (w : World) (q : string) :
  count_occ string_dec (sys_path (register roots w)) q
  <= Nat.max 1 (count_occ string_dec (sys_path w) q).
Proof.
  revert w. induction roots as [| r roots IH]; intros w; [simpl; lia |].
  unfold register in *. simpl.
  specialize (IH (add_to_path w r)). pose proof (add_to_path_count w r q). lia.
Qed.

Lemma add_current_dir_to_path_run (self : CodeReloader) (w : World) :
  _add_current_dir_to_path (self, w) = (Return tt, (self, register (paths_to_add self) w)).
Proof. reflexivity. Qed.


Lemma registrations_run (n : nat) (self : CodeReloader) (w : World) :
  registrations (S n) (self, w) = _add_current_dir_to_path (self, w).
Proof.
  revert w. induction n as [| n IH]; intros w.
  - reflexivity.
  - change (registrations (S (S n)))
      with (_add_current_dir_to_path;;; registrations (S n)).
    unfold bind at 1. rewrite add_current_dir_to_path_run.
    rewrite IH, add_current_dir_to_path_run. now rewrite register_idempotent.
Qed.

(** C7. Registration is idempotent: a second registration right after
    the first leaves the world as the first left it, and so does any
    number of them; and it never inserts a root that is already on the
    load path, so a root that was there at most once is there at most
    once afterwards, however often the step runs. *)
Theorem add_current_dir_to_path_idempotent (self : CodeReloader) (w : World) (n : nat) :
  (_add_current_dir_to_path;;; _add_current_dir_to_path) (self, w)
    = _add_current_dir_to_path (self, w)
  /\ registrations (S n) (self, w) = _add_current_dir_to_path (self, w)
  /\ forall root : string,
       count_occ string_dec (sys_path (snd (snd (registrations (S n) (self, w))))) root
       <= Nat.max 1 (count_occ string_dec (sys_path w) root).
Proof.
  split; [| split].
  - unfold bind. rewrite !add_current_dir_to_path_run. now rewrite register_idempotent.
  - apply registrations_run.
  - intros root. rewrite registrations_run, add_current_dir_to_path_run.
    apply (register_count (paths_to_add self)).
Qed.

(** *** The [__main__] block *)

(** The [__main__] block on the parsed arguments: with the version flag
    the banner and exit code 0, whatever the other arguments are; with
    no target and no version flag the usage help and exit code 1; with
    a target that has no candidate on disk the error and exit code 1. *)
Lemma main_cases (args : Namespace) (acts : list action) (w : World) :
  (arg_version args = true ->
     main args acts w = (0%Z, print (Logo VERSION) w))
  /\ (arg_version args = false -> arg_module args = None ->
        main args acts w = (1%Z, print Help w))
  /\ (forall m : string,
        arg_version args = false -> arg_module args = Some m -> m <> "" ->
        let target := PyStr.replace (PyStr.replace m ".py" "") ".py" "" in
        first_existing (fs w) (possible_paths target) = None ->
        main args acts w =
          (1%Z, print (Error (not_found_message target (possible_paths target))) w)).
Proof.
  split; [| split].
  - intros Hv. unfold main. now rewrite Hv.
  - intros Hv Hm. unfold main. now rewrite Hv, Hm.
  - intros m Hv Hm Hne target Hnone. unfold main. rewrite Hv, Hm.
    destruct m as [| c m']; [contradiction |].
    unfold watch_and_reload, __init__, _verify_module_exists.
    fold target. now rewrite Hnone.
Qed.

(** *** Startup *)

Lemma dispatch_quiet (acts : list action) (self : CodeReloader) (w : World) :
  no_notification acts = true ->
  exists f : FS,
    dispatch acts (self, w)
    = (Return tt, (self, mkWorld f (sys_path w) (stdout w) (hashed w) (called w) (reloads w))).
Proof.
  revert w. induction acts as [| a acts IH]; intros w Hq.
  - exists (fs w). now destruct w.
  - destruct a as [p content | p | src]; simpl in Hq; [| | discriminate].
    + destruct (IH (set_fs (<[p := File content]> (fs w)) w) Hq) as [f Hf].
      exists f. simpl. unfold bind at 1. unfold update_world at 1. simpl. exact Hf.
    + destruct (IH (set_fs (delete p (fs w)) w) Hq) as [f Hf].
      exists f. simpl. unfold bind at 1. unfold update_world at 1. simpl. exact Hf.
Qed.

(** *** The Reloader *)

Lemma register_ext (roots : list string) (w1 w2 : World) :
  fs w1 = fs w2 -> sys_path w1 = sys_path w2 ->
  sys_path (register roots w1) = sys_path (register roots w2).
Proof.
  revert w1 w2. induction roots as [| r roots IH]; intros w1 w2 Hf Hs; [exact Hs |].
  unfold register in *. simpl. apply IH.
  - now rewrite !add_to_path_fs.
  - unfold add_to_path. rewrite Hf, Hs. now destruct (_ && _).
Qed.

Lemma register_only_sys_path (roots : list string) (w : World) :
  register roots w
  = mkWorld (fs w) (sys_path (register roots w)) (stdout w) (hashed w) (called w) (reloads w).
Proof.
  revert w. induction roots as [| r roots IH]; intros w; [now destruct w |].
  unfold register in *. simpl. rewrite IH.
  unfold add_to_path. now destruct (_ && _).
Qed.

Lemma announce_fs (self : CodeReloader) (w : World) : fs (announce self w) = fs w.
Proof. unfold announce. now destruct (clear_on_reload self), (show_ui self). Qed.

Lemma announce_sys_path (self : CodeReloader) (w : World) :
  sys_path (announce self w) = sys_path w.
Proof. unfold announce. now destruct (clear_on_reload self), (show_ui self). Qed.

Lemma announce_called (self : CodeReloader) (w : World) :
  called (announce self w) = called w.
Proof. unfold announce. now destruct (clear_on_reload self), (show_ui self). Qed.

Lemma announce_hashed (self : CodeReloader) (w : World) :
  hashed (announce self w) = hashed w.
Proof. unfold announce. now destruct (clear_on_reload self), (show_ui self). Qed.

Lemma announce_reloads (self : CodeReloader) (w : World) :
  reloads (announce self w) = reloads w.
Proof. unfold announce. now destruct (clear_on_reload self), (show_ui self). Qed.

Lemma prepared_fs (self : CodeReloader) (w : World) : fs (prepared self w) = fs w.
Proof. unfold prepared. now rewrite register_fs, announce_fs. Qed.

Lemma prepared_sys_path (self : CodeReloader) (w : World) :
  sys_path (prepared self w) = sys_path (register (paths_to_add self) w).
Proof.
  unfold prepared. apply register_ext.
  - now rewrite announce_fs.
  - now rewrite announce_sys_path.
Qed.

Lemma prepared_called (self : CodeReloader) (w : World) :
  called (prepared self w) = called w.
Proof. unfold prepared. rewrite register_only_sys_path. simpl. now rewrite announce_called. Qed.

Lemma prepared_hashed (self : CodeReloader) (w : World) :
  hashed (prepared self w) = hashed w.
Proof. unfold prepared. rewrite register_only_sys_path. simpl. now rewrite announce_hashed. Qed.

Lemma prepared_reloads (self : CodeReloader) (w : World) :
  reloads (prepared self w) = S (reloads w).
Proof. unfold prepared. rewrite register_only_sys_path. simpl. now rewrite announce_reloads. Qed.

(** The run of the [try] body up to the answer of the import system. *)
Lemma reload_body_prefix (self : CodeReloader) (w : World) :
  reload_body (self, count_reload w)
  = match load_attempt self w with
    | Raise e => (Raise e, (self, prepared self w))
    | Return h =>
        let self' := set_module (Some h) self in
        let w' := prepared self w in
        match callback self with
        | Some f =>
            match f h with
            | Return _ =>
                (Return tt,
                 (self', if show_ui self
                         then print (Success ("Successfully reloaded " +:+ module_name self
                                              +:+ " at " +:+ strftime)) (log_called h w')
                         else log_called h w'))
            | Raise e => (Raise e, (self', log_called h w'))
            end
        | None =>
            (Return tt,
             (self', if show_ui self
                     then print (Success ("Successfully reloaded " +:+ module_name self
                                          +:+ " at " +:+ strftime)) w'
                     else w'))
        end
    end.
Proof.
  unfold load_attempt, prepared, reload_body, announce.
  unfold bind, get_self, get_world, when, clear_console, print_header, print_success,
    _add_current_dir_to_path, update_world, update_self, lift, ret. simpl.
  fold (register (paths_to_add self)).
  destruct (clear_on_reload self) eqn:Hc, (show_ui self) eqn:Hu, (module self) as [old |];
    cbn; rewrite ?Hu;
    match goal with
    | |- context [reload ?a ?b ?c] => destruct (reload a b c) as [h | e]
    | |- context [import_module ?a ?b ?c] => destruct (import_module a b c) as [h | e]
    end; cbn; rewrite ?Hu; try reflexivity;
    (destruct (callback self) as [f |]; cbn; rewrite ?Hu; try reflexivity);
    (destruct (f h) as [[] | e']; cbn; rewrite ?Hu; reflexivity).
Qed.

Lemma reload_module_run (self : CodeReloader) (w : World) :
  reload_module (self, w)
  = match reload_body (self, count_reload w) with
    | (Return a, st) => (Return a, st)
    | (Raise e, st) => if is_Exception e then report_failure e st else (Raise e, st)
    end.
Proof. reflexivity. Qed.

Lemma report_failure_run (e : exn) (self : CodeReloader) (w : World) :
  report_failure e (self, w)
  = if show_ui self then
      let w' := print (Error ("Error reloading " +:+ module_name self +:+ ": " +:+ str_exn e)) w in
      match failure_path self with
      | Some p => (Return tt, (self, print (Error ("Module path: " +:+ str p)) w'))
      | None => (Raise (ValueError "empty name"), (self, w'))
      end
    else (Return tt, (self, w)).
Proof.
  unfold report_failure, failure_path, bind, get_self, when, print_error, update_world, raise, ret.
  simpl. destruct (show_ui self); [| reflexivity]. simpl.
  now destruct (with_suffix_py _).
Qed.

(** The failure report touches the console only. *)
Lemma report_failure_state (e : exn) (self : CodeReloader) (w : World) :
  let st := snd (report_failure e (self, w)) in
  fst st = self /\ fs (snd st) = fs w /\ sys_path (snd st) = sys_path w
  /\ hashed (snd st) = hashed w /\ called (snd st) = called w /\ reloads (snd st) = reloads w.
Proof.
  rewrite report_failure_run. destruct (show_ui self); simpl; [| tauto].
  destruct (failure_path self); simpl; tauto.
Qed.

Lemma report_failure_returns (e : exn) (self : CodeReloader) (w : World) :
  show_ui self = false \/ is_Some (failure_path self) ->
  fst (report_failure e (self, w)) = Return tt.
Proof.
  intros H. rewrite report_failure_run. destruct (show_ui self) eqn:Hui; [| reflexivity].
  destruct H as [H | [p Hp]]; [discriminate |]. now rewrite Hp.
Qed.

Lemma load_attempt_ext (self1 self2 : CodeReloader) (w1 w2 : World) :
  module self1 = module self2 -> module_name self1 = module_name self2 ->
  watch_path self1 = watch_path self2 ->
  fs w1 = fs w2 -> sys_path w1 = sys_path w2 ->
  load_attempt self1 w1 = load_attempt self2 w2.
Proof.
  intros Hm Hn Hp Hf Hs. unfold load_attempt.
  rewrite !prepared_fs, !prepared_sys_path, Hm, Hn, Hf.
  unfold paths_to_add. rewrite Hp.
  now rewrite (register_ext _ w1 w2 Hf Hs).
Qed.

(** Everything but the console after a call of [reload_module], from
    the answer of the import system. *)
Lemma reload_module_state (self : CodeReloader) (w : World) :
  let st := snd (reload_module (self, w)) in
  match load_attempt self w with
  | Raise _ => fst st = self /\ called (snd st) = called w
  | Return h =>
      fst st = set_module (Some h) self
      /\ called (snd st) = called w ++ match callback self with Some _ => [h] | None => [] end
  end
  /\ reloads (snd st) = S (reloads w)
  /\ fs (snd st) = fs w
  /\ sys_path (snd st) = sys_path (register (paths_to_add self) w)
  /\ hashed (snd st) = hashed w.
Proof.
  rewrite reload_module_run, reload_body_prefix.
  pose proof (prepared_fs self w) as Hf.
  pose proof (prepared_sys_path self w) as Hs.
  pose proof (prepared_called self w) as Hc.
  pose proof (prepared_hashed self w) as Hh.
  pose proof (prepared_reloads self w) as Hr.
  destruct (load_attempt self w) as [h | e]; cbn zeta.
  - destruct (callback self) as [f |].
    + destruct (f h) as [[] | e].
      * destruct (show_ui self); simpl; rewrite ?Hc; tauto.
      * destruct (is_Exception e); [| simpl; rewrite ?Hc; tauto].
        pose proof (report_failure_state e (set_module (Some h) self)
                      (log_called h (prepared self w))) as H.
        cbn zeta in H. simpl in H. destruct H as (H1 & H2 & H3 & H4 & H5 & H6).
        rewrite H1, H2, H3, H4, H5, H6, Hc. tauto.
    + destruct (show_ui self); simpl; rewrite ?Hc, ?app_nil_r; tauto.
  - destruct (is_Exception e); [| simpl; tauto].
    pose proof (report_failure_state e self (prepared self w)) as H.
    cbn zeta in H. destruct H as (H1 & H2 & H3 & H4 & H5 & H6).
    rewrite H1, H2, H3, H4, H5, H6. tauto.
Qed.

(** Whether [reload_module] returns, from what left the [try] body. *)
Lemma reload_module_outcome (self : CodeReloader) (w : World) :
  fst (reload_module (self, w))
  = match attempt_error self w with
    | None => Return tt
    | Some e =>
        if is_Exception e then
          if show_ui self then
            match failure_path self with
            | Some _ => Return tt
            | None => Raise (ValueError "empty name")
            end
          else Return tt
        else Raise e
    end.
Proof.
  assert (forall e r' w', show_ui r' = show_ui self -> failure_path r' = failure_path self ->
            fst (report_failure e (r', w'))
            = if show_ui self then
                match failure_path self with
                | Some _ => Return tt
                | None => Raise (ValueError "empty name")
                end
              else Return tt) as Hrep.
  { intros e r' w' Hu Hp. rewrite report_failure_run, Hu, Hp.
    destruct (show_ui self); [| reflexivity]. now destruct (failure_path self). }
  rewrite reload_module_run, reload_body_prefix. unfold attempt_error.
  destruct (load_attempt self w) as [h | e]; cbn zeta.
  - destruct (callback self) as [f |]; [| reflexivity].
    destruct (f h) as [[] | e]; [reflexivity |].
    destruct (is_Exception e); [| reflexivity]. now apply Hrep.
  - destruct (is_Exception e); [| reflexivity]. now apply Hrep.
Qed.

Lemma reload_module_returns (self : CodeReloader) (w : World) :
  show_ui self = false \/ is_Some (failure_path self) ->
  (forall e, attempt_error self w = Some e -> is_Exception e = true) ->
  fst (reload_module (self, w)) = Return tt.
Proof.
  intros H Hexc. rewrite reload_module_outcome.
  destruct (attempt_error self w) as [e |]; [| reflexivity].
  rewrite (Hexc e eq_refl).
  destruct (show_ui self); [| reflexivity].
  destruct H as [H | [p Hp]]; [discriminate |]. now rewrite Hp.
Qed.


(** A notification at a glance. *)
Lemma on_modified_run (src_path : string) (r : CodeReloader) (w : World) :
  on_modified src_path (r, w)
  = if PyStr.endswith src_path ".py" then
      if bool_decide (resolve (fs w) (Path_ src_path) = resolve (fs w) (module_file_path r))
      then
        match _has_file_changed (str (resolve (fs w) (Path_ src_path))) (r, w) with
        | (Return true, st) => reload_module st
        | (Return false, st) => (Return tt, st)
        | (Raise e, st) => (Raise e, st)
        end
      else (Return tt, (r, w))
    else (Return tt, (r, w)).
Proof.
  unfold on_modified. destruct (PyStr.endswith src_path ".py"); [| reflexivity].
  unfold bind, get_self, get_world. simpl.
  destruct (bool_decide _); [| reflexivity].
  destruct (_has_file_changed _ _) as [[[|] | e] st]; reflexivity.
Qed.

(** A notification for the watched file, a real file at that moment:
    the digest check runs, and [reload_module] follows when it says
    that the file changed. *)
Lemma on_modified_target (src_path : string) (self : CodeReloader) (w : World) content :
  PyStr.endswith src_path ".py" = true ->
  resolve (fs w) (Path_ src_path) = resolve (fs w) (module_file_path self) ->
  fs w !! str (resolve (fs w) (Path_ src_path)) = Some (File content) ->
  let key := str (resolve (fs w) (Path_ src_path)) in
  on_modified src_path (self, w)
  = if bool_decide (file_hashes self !! key = Some (Hashlib.md5 content))
    then (Return tt, (self, log_hashed key w))
    else reload_module
           (set_file_hashes (<[key := Hashlib.md5 content]> (file_hashes self)) self,
            log_hashed key w).
Proof.
  intros Hpy Heq Hfile key. subst key.
  rewrite on_modified_run, Hpy. rewrite bool_decide_eq_true_2 by exact Heq.
  rewrite has_file_changed_run, Hfile. cbn zeta.
  destruct (file_hashes self !! _) as [recorded |] eqn:Hrec.
  - destruct (String.eqb_spec (Hashlib.md5 content) recorded) as [<- | Hne]; simpl.
    + now rewrite bool_decide_eq_true_2.
    + rewrite bool_decide_eq_false_2; [reflexivity | congruence].
  - rewrite bool_decide_eq_false_2; [reflexivity | congruence].
Qed.

(** C1, as the code has it.  Startup performs no load: when the target
    resolves and no notification is delivered, [watch_and_reload] ends
    with the handle still null, [reload_module] never called, nothing
    hashed, no callback, [sys.path] untouched.  The first load is the
    one of the first notification for the watched file that passes the
    digest check: with a null handle and no digest recorded, such a
    notification calls [reload_module] once, and the handle is then
    what the import system answered. *)
Theorem first_load_is_lazy (target : string) (cb : option (Handle -> outcome unit))
    (ui clear : bool) (acts : list action) (w : World) (name : string) (path : Path)
    (Hresolved : _verify_module_exists (PyStr.replace target ".py" "") (fs w)
                 = Return (name, path))
    (Hquiet : no_notification acts = true) :
  (exists w' : World,
     watch_and_reload target cb ui clear acts w
     = (Return (mkReloader (PyStr.replace target ".py" "") cb None ∅ cwd ui clear name path), w')
     /\ reloads w' = reloads w /\ hashed w' = hashed w
     /\ called w' = called w /\ sys_path w' = sys_path w)
  /\ (forall (self : CodeReloader) (w1 : World) (src_path : string) content (h : Handle),
        module self = None ->
        file_hashes self !! str (resolve (fs w1) (Path_ src_path)) = None ->
        PyStr.endswith src_path ".py" = true ->
        resolve (fs w1) (Path_ src_path) = resolve (fs w1) (module_file_path self) ->
        fs w1 !! str (resolve (fs w1) (Path_ src_path)) = Some (File content) ->
        import_module (sys_path (register (paths_to_add self) w1)) (fs w1) (module_name self)
        = Return h ->
        let st := snd (on_modified src_path (self, w1)) in
        module (fst st) = Some h /\ reloads (snd st) = S (reloads w1)).
Proof.
  split.
  - unfold watch_and_reload, __init__. rewrite Hresolved.
    set (self := mkReloader _ _ _ _ _ _ _ _ _).
    set (w0 := if ui then _ else w).
    destruct (dispatch_quiet acts self w0 Hquiet) as [f Hf]. rewrite Hf.
    eexists. split; [reflexivity |].
    unfold w0. destruct ui; simpl; tauto.
  - intros self w1 src_path content h Hmod Hrec Hpy Heq Hfile Himp st.
    unfold st. rewrite (on_modified_target _ _ _ content Hpy Heq Hfile). cbn zeta.
    rewrite Hrec. rewrite bool_decide_eq_false_2 by discriminate.
    set (self' := set_file_hashes _ self).
    set (w' := log_hashed _ w1).
    pose proof (reload_module_state self' w') as Hst.
    assert (load_attempt self' w' = Return h) as Hload.
    { rewrite (load_attempt_ext self' self w' w1) by reflexivity.
      unfold load_attempt. now rewrite Hmod, prepared_fs, prepared_sys_path. }
    rewrite Hload in Hst. destruct Hst as ((Hself & _) & Hr & _).
    rewrite Hself, Hr. now split.
Qed.

(** *** Successive writes *)

Lemma logged_fs (n : nat) (p : string) (w : World) : fs (logged n p w) = fs w.
Proof. revert w. induction n as [| n IH]; intros w; [reflexivity |]. simpl. now rewrite IH. Qed.





(** *** Module resolution *)

Lemma split_not_nil (c : ascii) (s : string) : PyStr.split c s <> [].
Proof.
  destruct s as [| a s]; simpl; [discriminate |].
  destruct (Ascii.eqb a c); [discriminate |].
  destruct (PyStr.split c s); discriminate.
Qed.

(** Appending [".py"] to a string appends it to its last component. *)
Lemma split_append_py (s : string) :
  exists (front : list string) (lst : string),
    PyStr.split "/" (s +:+ ".py") = front ++ [lst +:+ ".py"].
Proof.
  induction s as [| a s (front & lst & IH)].
  - exists [], "". reflexivity.
  - simpl. destruct (Ascii.eqb a "/").
    + exists ("" :: front), lst. simpl. now rewrite IH.
    + change (String a s +:+ ".py") with (String a (s +:+ ".py")) in *.
      rewrite IH. destruct front as [| x front].
      * exists [], (String a lst). reflexivity.
      * exists (String a x :: front), lst. reflexivity.
Qed.

Lemma keep_part_py (x : string) : keep_part (x +:+ ".py") = true.
Proof.
  destruct x as [| a [| b x]]; [reflexivity | |];
    unfold keep_part; simpl; destruct (Ascii.eqb a "."); reflexivity.
Qed.

Lemma rel_parts_py (s : string) :
  exists (front : list string) (lst : string), rel_parts (s +:+ ".py") = front ++ [lst +:+ ".py"].
Proof.
  destruct (split_append_py s) as (front & lst & H).
  exists (List.filter keep_part front), lst.
  unfold rel_parts. rewrite H, List.filter_app. simpl. now rewrite keep_part_py.
Qed.

Lemma append_py_not_empty (x : string) : x +:+ ".py" <> "".
Proof. destruct x; discriminate. Qed.

(** A path made by joining a string that ends in [".py"] has a name. *)
Lemma name_truediv_py (base : Path) (s : string) : name (truediv base (s +:+ ".py")) <> "".
Proof.
  destruct (rel_parts_py s) as (front & lst & H).
  unfold truediv, name, Path_. simpl. rewrite H.
  destruct (String.eqb (splitroot (s +:+ ".py")) ""); simpl;
    rewrite ?app_assoc, List.last_last; apply append_py_not_empty.
Qed.

Lemma name_truediv_init (base : Path) : name (truediv base "__init__.py") = "__init__.py".
Proof. unfold truediv, name. simpl. apply List.last_last. Qed.

Lemma dotted_name_returns (path : Path) :
  name path <> "" -> exists n : string, dotted_name path = Return n.
Proof.
  intros H. unfold dotted_name, with_suffix_empty.
  destruct (String.eqb_spec (name path) "") as [E | _]; [contradiction |].
  eexists. reflexivity.
Qed.

Lemma possible_paths_unfold (target : string) :
  possible_paths target
  = [ truediv (Path_ "") (stem (Path_ target) +:+ ".py");
      truediv (truediv (Path_ "") (stem (Path_ target))) "__init__.py";
      truediv (Path_ "") (str (Path_ target) +:+ ".py");
      truediv (Path_ "Utils") (stem (Path_ target) +:+ ".py");
      truediv (truediv (Path_ "Utils") (stem (Path_ target))) "__init__.py";
      truediv (Path_ "Utils") (str (Path_ target) +:+ ".py") ].
Proof. reflexivity. Qed.

(** Every candidate has a name, so its module notation is defined. *)
Lemma candidate_named (target : string) (path : Path) :
  path ∈ possible_paths target -> exists n : string, dotted_name path = Return n.
Proof.
  rewrite possible_paths_unfold. intros H. apply dotted_name_returns.
  repeat (apply elem_of_cons in H as [-> | H]);
    try apply name_truediv_py; try (rewrite name_truediv_init; discriminate).
  inversion H.
Qed.

Lemma first_existing_found (f : FS) (paths : list Path) (i : nat) (path : Path) :
  paths !! i = Some path ->
  exists_ f (str path) = true ->
  (forall j q, j < i -> paths !! j = Some q -> exists_ f (str q) = false) ->
  first_existing f paths = Some path.
Proof.
  revert i. induction paths as [| p paths IH]; intros i Hi Hex Hbefore; [discriminate |].
  destruct i as [| i]; simpl in *.
  - injection Hi as ->. now rewrite Hex.
  - rewrite (Hbefore 0 p) by (lia || reflexivity).
    apply (IH i Hi Hex). intros j q Hj Hq. apply (Hbefore (S j) q); [lia | exact Hq].
Qed.

Lemma first_existing_none (f : FS) (paths : list Path) :
  (forall p, p ∈ paths -> exists_ f (str p) = false) -> first_existing f paths = None.
Proof.
  induction paths as [| p paths IH]; intros H; [reflexivity |]. simpl.
  rewrite (H p) by apply list_elem_of_here.
  apply IH. intros q Hq. apply H. now apply list_elem_of_further.
Qed.

(** C4. The candidates are the two search roots, the current directory
    first, each with the direct file, the package and the path as
    given with the extension, in this order; the candidate found is the
    first of the list that exists; when none exists the [ImportError]
    carries the list of the candidates, in the same order. *)
Theorem verify_module_exists_priority (target : string) (f : FS) :
  possible_paths target
  = [ truediv (Path_ "") (stem (Path_ target) +:+ ".py");
      truediv (truediv (Path_ "") (stem (Path_ target))) "__init__.py";
      truediv (Path_ "") (str (Path_ target) +:+ ".py");
      truediv (Path_ "Utils") (stem (Path_ target) +:+ ".py");
      truediv (truediv (Path_ "Utils") (stem (Path_ target))) "__init__.py";
      truediv (Path_ "Utils") (str (Path_ target) +:+ ".py") ]
  /\ (forall (i : nat) (path : Path),
        possible_paths target !! i = Some path ->
        exists_ f (str path) = true ->
        (forall j q, j < i -> possible_paths target !! j = Some q -> exists_ f (str q) = false) ->
        exists name : string, _verify_module_exists target f = Return (name, path))
  /\ ((forall path, path ∈ possible_paths target -> exists_ f (str path) = false) ->
        _verify_module_exists target f
        = Raise (ImportError
                   ("Could not find module '" +:+ target +:+ "'. Searched in:" +:+ nl
                    +:+ PyStr.join nl (List.map (fun p => "- " +:+ str p) (possible_paths target))
                    +:+ nl +:+ nl
                    +:+ "Make sure the file exists in either the current directory or the Utils directory."))).
Proof.
  split; [apply possible_paths_unfold | split].
  - intros i path Hi Hex Hbefore.
    unfold _verify_module_exists.
    rewrite (first_existing_found f _ i path Hi Hex Hbefore).
    destruct (candidate_named target path) as [n Hn].
    + apply list_elem_of_lookup. now exists i.
    + exists n. now rewrite Hn.
  - intros Hnone. unfold _verify_module_exists.
    now rewrite (first_existing_none f _ Hnone).
Qed.

(** *** Stripping the extension *)

Lemma append_cons (c : ascii) (u v : string) : String c u +:+ v = String c (u +:+ v).
Proof. reflexivity. Qed.

Lemma append_nil (v : string) : "" +:+ v = v.
Proof. reflexivity. Qed.

Lemma append_empty (s : string) : s +:+ "" = s.
Proof. induction s as [| c s IH]; [reflexivity |]. rewrite append_cons. now rewrite IH. Qed.

Lemma prefix_py_shape (a : string) :
  String.prefix ".py" a = true -> exists rest : string, a = ".py" +:+ rest.
Proof.
  destruct a as [| c1 [| c2 [| c3 rest]]]; cbn [String.prefix];
    repeat (destruct (ascii_dec _ _)); try discriminate.
  subst. intros _. now exists rest.
Qed.

(** An occurrence of [".py"] never starts inside another one, so
    whether a non-empty string starts with it does not depend on
    a [".py"] that follows the string. *)
Lemma prefix_py_app (c : ascii) (a t : string) :
  String.prefix ".py" (String c a +:+ ".py" +:+ t) = String.prefix ".py" (String c a).
Proof.
  destruct a as [| c2 [| c3 rest]]; rewrite ?append_cons, ?append_nil; cbn [String.prefix];
    repeat (destruct (ascii_dec _ _); subst; try discriminate; try reflexivity).
  now destruct rest.
Qed.

Lemma scan_py_match (rest : string) :
  PyStr.replace_scan ".py" "" 0 (".py" +:+ rest) = PyStr.replace_scan ".py" "" 0 rest.
Proof. destruct rest; reflexivity. Qed.

Lemma scan_py_keep (c : ascii) (t : string) :
  String.prefix ".py" (String c t) = false ->
  PyStr.replace_scan ".py" "" 0 (String c t) = String c (PyStr.replace_scan ".py" "" 0 t).
Proof. intros H. cbn [PyStr.replace_scan]. now rewrite H. Qed.

(** The scan deletes an occurrence and goes on after it. *)
Lemma scan_py_app (n : nat) (a b : string) :
  String.length a <= n ->
  PyStr.replace_scan ".py" "" 0 (a +:+ ".py" +:+ b)
  = PyStr.replace_scan ".py" "" 0 a +:+ PyStr.replace_scan ".py" "" 0 b.
Proof.
  revert a. induction n as [| n IH]; intros a Hn.
  - destruct a; [apply scan_py_match | simpl in Hn; lia].
  - destruct a as [| c a]; [apply scan_py_match |].
    destruct (String.prefix ".py" (String c a)) eqn:E.
    + destruct (prefix_py_shape _ E) as [rest Hrest]. rewrite Hrest.
      change ((".py" +:+ rest) +:+ ".py" +:+ b) with (".py" +:+ (rest +:+ ".py" +:+ b)).
      rewrite !scan_py_match. apply IH.
      assert (String.length (String c a) = 3 + String.length rest) as Hlen
          by now rewrite Hrest.
      simpl in Hn, Hlen. lia.
    + rewrite (scan_py_keep c a E).
      change (String c a +:+ ".py" +:+ b) with (String c (a +:+ ".py" +:+ b)).
      rewrite scan_py_keep.
      * change (String c (PyStr.replace_scan ".py" "" 0 a) +:+ PyStr.replace_scan ".py" "" 0 b)
          with (String c (PyStr.replace_scan ".py" "" 0 a +:+ PyStr.replace_scan ".py" "" 0 b)).
        f_equal. apply IH. simpl in Hn. lia.
      * change (String c (a +:+ ".py" +:+ b)) with (String c a +:+ ".py" +:+ b).
        now rewrite prefix_py_app.
Qed.

(** A string with no occurrence of [".py"] is left as it is. *)
Lemma scan_py_none (s : string) :
  (forall i, ~ PyStr.occurs_at ".py" s i) -> PyStr.replace_scan ".py" "" 0 s = s.
Proof.
  induction s as [| c s IH]; intros H; [reflexivity |].
  rewrite scan_py_keep.
  - f_equal. apply IH. intros i Hi. apply (H (S i)). exact Hi.
  - destruct (String.prefix ".py" (String c s)) eqn:E; [| reflexivity].
    exfalso. apply (H 0). now apply String.prefix_correct.
Qed.

Lemma substring_append (t s : string) (i m : nat) :
  String.length (String.substring i (S m) s) = S m ->
  String.substring i (S m) (s +:+ t) = String.substring i (S m) s.
Proof.
  revert i m. induction s as [| c s IH]; intros i m H.
  - destruct i; discriminate.
  - destruct i as [| i].
    + rewrite append_cons. cbn [String.substring] in *. f_equal.
      destruct m as [| m]; [now destruct s, (_ +:+ t) |]. apply IH. simpl in H. lia.
    + rewrite append_cons. cbn [String.substring] in *. now apply IH.
Qed.

Lemma occurs_at_append (s t : string) (i : nat) :
  PyStr.occurs_at ".py" s i -> PyStr.occurs_at ".py" (s +:+ t) i.
Proof.
  unfold PyStr.occurs_at. intros H. cbn [String.length] in *.
  rewrite substring_append; [exact H | now rewrite H].
Qed.

Lemma substring_length_le (s : string) (i n : nat) :
  String.substring i n s <> "" -> i + String.length (String.substring i n s) <= String.length s.
Proof.
  revert i n. induction s as [| c s IH]; intros i n H.
  - destruct i, n; simpl in *; congruence.
  - destruct i as [| i].
    + destruct n as [| n]; [simpl in H; congruence |].
      cbn [String.substring String.length] in *.
      destruct (String.string_dec (String.substring 0 n s) "") as [E | E].
      * rewrite E. simpl. lia.
      * specialize (IH 0 n E). lia.
    + cbn [String.substring String.length] in *. specialize (IH i n H). lia.
Qed.

Lemma occurs_at_length (s : string) (i : nat) :
  PyStr.occurs_at ".py" s i -> i + 3 <= String.length s.
Proof.
  unfold PyStr.occurs_at. intros H.
  pose proof (substring_length_le s i (String.length ".py")) as Hle.
  rewrite H in Hle. apply Hle. discriminate.
Qed.

(** *** The console flag *)

Lemma same_but_console_intro (r1 r2 : CodeReloader) (w1 w2 : World) :
  target_module r1 = target_module r2 -> callback r1 = callback r2 ->
  module r1 = module r2 -> file_hashes r1 = file_hashes r2 ->
  watch_path r1 = watch_path r2 -> clear_on_reload r1 = clear_on_reload r2 ->
  module_name r1 = module_name r2 -> module_file_path r1 = module_file_path r2 ->
  fs w1 = fs w2 -> sys_path w1 = sys_path w2 -> hashed w1 = hashed w2 ->
  called w1 = called w2 -> reloads w1 = reloads w2 ->
  same_but_console (r1, w1) (r2, w2).
Proof. intros. unfold same_but_console, quiet_self, quiet_world. simpl. split; congruence. Qed.

Lemma same_but_console_elim (r1 r2 : CodeReloader) (w1 w2 : World) :
  same_but_console (r1, w1) (r2, w2) ->
  (target_module r1 = target_module r2 /\ callback r1 = callback r2
   /\ module r1 = module r2 /\ file_hashes r1 = file_hashes r2
   /\ watch_path r1 = watch_path r2 /\ clear_on_reload r1 = clear_on_reload r2
   /\ module_name r1 = module_name r2 /\ module_file_path r1 = module_file_path r2)
  /\ (fs w1 = fs w2 /\ sys_path w1 = sys_path w2 /\ hashed w1 = hashed w2
      /\ called w1 = called w2 /\ reloads w1 = reloads w2).
Proof.
  unfold same_but_console, quiet_self, quiet_world. simpl. intros [H1 H2].
  injection H1 as ?; injection H2 as ?. tauto.
Qed.

(** The digest check does not look at the console. *)
Lemma has_file_changed_console (key : string) (st1 st2 : CodeReloader * World) :
  same_but_console st1 st2 ->
  fst (_has_file_changed key st1) = fst (_has_file_changed key st2)
  /\ same_but_console (snd (_has_file_changed key st1)) (snd (_has_file_changed key st2)).
Proof.
  destruct st1 as [r1 w1], st2 as [r2 w2]. intros H.
  destruct (same_but_console_elim _ _ _ _ H)
    as ((Ht & Hcb & Hm & Hh & Hwp & Hcl & Hn & Hp) & (Hf & Hs & Hhd & Hc & Hr)).
  rewrite !has_file_changed_run, Hf, Hh.
  destruct (fs w2 !! key) as [[content | |] |]; try (split; [reflexivity | exact H]).
  cbn zeta.
  destruct (file_hashes r2 !! key) as [recorded |].
  - destruct (negb (String.eqb (Hashlib.md5 content) recorded)); simpl;
      (split; [reflexivity | apply same_but_console_intro; simpl; congruence]).
  - split; [reflexivity | apply same_but_console_intro; simpl; congruence].
Qed.

(** Neither does [reload_module], as long as it returns. *)
Lemma reload_module_console (st1 st2 : CodeReloader * World) :
  same_but_console st1 st2 ->
  is_Some (failure_path (fst st1)) ->
  fst (reload_module st1) = fst (reload_module st2)
  /\ same_but_console (snd (reload_module st1)) (snd (reload_module st2)).
Proof.
  destruct st1 as [r1 w1], st2 as [r2 w2]. intros H Hpath.
  destruct (same_but_console_elim _ _ _ _ H)
    as ((Ht & Hcb & Hm & Hh & Hwp & Hcl & Hn & Hp) & (Hf & Hs & Hhd & Hc & Hr)).
  simpl in Hpath.
  assert (is_Some (failure_path r2)) as Hpath2 by (unfold failure_path in *; now rewrite <- Hn).
  split.
  - rewrite !reload_module_outcome. unfold attempt_error.
    rewrite (load_attempt_ext r1 r2 w1 w2 Hm Hn Hwp Hf Hs), Hcb.
    destruct Hpath as [p1 Hp1], Hpath2 as [p2 Hp2]. rewrite Hp1, Hp2.
    destruct (load_attempt r2 w2) as [h | e];
      [destruct (callback r2) as [f |]; [destruct (f h) as [[] | e] |] |];
      try reflexivity;
      destruct (is_Exception e); try reflexivity; now destruct (show_ui r1), (show_ui r2).
  - pose proof (reload_module_state r1 w1) as H1.
    pose proof (reload_module_state r2 w2) as H2.
    rewrite (load_attempt_ext r1 r2 w1 w2 Hm Hn Hwp Hf Hs) in H1.
    destruct (reload_module (r1, w1)) as [o1 [r1' w1']].
    destruct (reload_module (r2, w2)) as [o2 [r2' w2']].
    cbn [fst snd] in *.
    destruct H1 as (Ha1 & Hr1 & Hf1 & Hs1 & Hh1).
    destruct H2 as (Ha2 & Hr2 & Hf2 & Hs2 & Hh2).
    assert (sys_path w1' = sys_path w2') as Hsp.
    { rewrite Hs1, Hs2. unfold paths_to_add. rewrite Hwp. now apply register_ext. }
    destruct (load_attempt r2 w2) as [h | e].
    + destruct Ha1 as [-> Hc1], Ha2 as [-> Hc2].
      apply same_but_console_intro; simpl; try congruence.
      rewrite Hc1, Hc2, Hcb, Hc. reflexivity.
    + destruct Ha1 as [-> Hc1], Ha2 as [-> Hc2].
      apply same_but_console_intro; simpl; congruence.
Qed.


Lemma has_file_changed_name (key : string) (r : CodeReloader) (w : World) :
  module_name (fst (snd (_has_file_changed key (r, w)))) = module_name r.
Proof.
  rewrite has_file_changed_run.
  destruct (fs w !! key) as [[content | |] |]; try reflexivity. cbn zeta.
  destruct (file_hashes r !! key); [destruct (negb _) |]; reflexivity.
Qed.

Lemma on_modified_console (src_path : string) (st1 st2 : CodeReloader * World) :
  same_but_console st1 st2 ->
  is_Some (failure_path (fst st1)) ->
  fst (on_modified src_path st1) = fst (on_modified src_path st2)
  /\ same_but_console (snd (on_modified src_path st1)) (snd (on_modified src_path st2)).
Proof.
  destruct st1 as [r1 w1], st2 as [r2 w2]. intros H Hpath.
  destruct (same_but_console_elim _ _ _ _ H)
    as ((Ht & Hcb & Hm & Hh & Hwp & Hcl & Hn & Hp) & (Hf & Hs & Hhd & Hc & Hr)).
  rewrite !on_modified_run, Hf, Hp.
  destruct (PyStr.endswith src_path ".py"); [| split; [reflexivity | exact H]].
  destruct (bool_decide _); [| split; [reflexivity | exact H]].
  set (key := str (resolve (fs w2) (Path_ src_path))).
  destruct (has_file_changed_console key (r1, w1) (r2, w2) H) as [Hout Hst].
  pose proof (has_file_changed_name key r1 w1) as Hname.
  destruct (_has_file_changed key (r1, w1)) as [o1 st1'].
  destruct (_has_file_changed key (r2, w2)) as [o2 st2'].
  cbn [fst snd] in Hout, Hst, Hname. subst o2.
  destruct o1 as [[|] | e]; try (split; [reflexivity | exact Hst]).
  apply reload_module_console; [exact Hst |].
  cbn [fst] in Hpath. unfold failure_path in *. now rewrite Hname.
Qed.

Lemma dispatch_write (p : string) (content : list byte) (acts : list action)
    (r : CodeReloader) (w : World) :
  dispatch (Write p content :: acts) (r, w)
  = dispatch acts (r, set_fs (<[p := File content]> (fs w)) w).
Proof. reflexivity. Qed.

Lemma dispatch_remove (p : string) (acts : list action) (r : CodeReloader) (w : World) :
  dispatch (Remove p :: acts) (r, w) = dispatch acts (r, set_fs (delete p (fs w)) w).
Proof. reflexivity. Qed.

Lemma dispatch_modified (src : string) (acts : list action) (st : CodeReloader * World) :
  dispatch (Modified src :: acts) st
  = match on_modified src st with
    | (Return _, st') => dispatch acts st'
    | (Raise e, st') => (Raise e, st')
    end.
Proof. reflexivity. Qed.

Lemma on_modified_name (src : string) (r : CodeReloader) (w : World) :
  module_name (fst (snd (on_modified src (r, w)))) = module_name r.
Proof.
  rewrite on_modified_run.
  destruct (PyStr.endswith src ".py"); [| reflexivity].
  destruct (bool_decide _); [| reflexivity].
  pose proof (has_file_changed_name (str (resolve (fs w) (Path_ src))) r w) as Hk.
  destruct (_has_file_changed _ (r, w)) as [[[|] | e] [r' w']]; cbn [fst snd] in *;
    try exact Hk.
  pose proof (reload_module_state r' w') as Hst.
  destruct (load_attempt r' w'); destruct Hst as ((-> & _) & _); exact Hk.
Qed.

(** Supporting C9: as long as the failure lines can be printed, two
    runs of the observer thread from states that differ in the console
    flag and the console only end alike, in what they return and in
    everything but the console. *)
Lemma dispatch_console (acts : list action) (st1 st2 : CodeReloader * World) :
  same_but_console st1 st2 ->
  is_Some (failure_path (fst st1)) ->
  fst (dispatch acts st1) = fst (dispatch acts st2)
  /\ same_but_console (snd (dispatch acts st1)) (snd (dispatch acts st2)).
Proof.
  revert st1 st2. induction acts as [| a acts IH]; intros [r1 w1] [r2 w2] H Hpath.
  - split; [reflexivity | exact H].
  - destruct (same_but_console_elim _ _ _ _ H)
      as ((Ht & Hcb & Hm & Hh & Hwp & Hcl & Hn & Hp) & (Hf & Hs & Hhd & Hc & Hr)).
    destruct a as [p content | p | src].
    + rewrite !dispatch_write. apply IH; [| exact Hpath].
      apply same_but_console_intro; simpl; congruence.
    + rewrite !dispatch_remove. apply IH; [| exact Hpath].
      apply same_but_console_intro; simpl; congruence.
    + rewrite !dispatch_modified.
      destruct (on_modified_console src _ _ H Hpath) as [Hout Hst].
      pose proof (on_modified_name src r1 w1) as Hname.
      destruct (on_modified src (r1, w1)) as [o1 st1'].
      destruct (on_modified src (r2, w2)) as [o2 st2'].
      cbn [fst snd] in *. subst o2.
      destruct o1 as [[] | e]; [| split; [reflexivity | exact Hst]].
      apply IH; [exact Hst |].
      unfold failure_path in *. now rewrite Hname.
Qed.

(** The same for whole runs of [watch_and_reload], with the console
    enabled and disabled. *)
Lemma watch_and_reload_console (target : string) (cb : option (Handle -> outcome unit))
    (clear : bool) (acts : list action) (w : World) (name : string) (path : Path) :
  _verify_module_exists (PyStr.replace target ".py" "") (fs w) = Return (name, path) ->
  is_Some (with_suffix_py (Path_ (PyStr.replace name "." sep))) ->
  exists (r1 r2 : CodeReloader) (w1 w2 : World),
    watch_and_reload target cb true clear acts w = (Return r1, w1)
    /\ watch_and_reload target cb false clear acts w = (Return r2, w2)
    /\ same_but_console (r1, w1) (r2, w2).
Proof.
  intros Hres Hpath. unfold watch_and_reload, __init__. rewrite Hres.
  set (s1 := (mkReloader _ cb None ∅ cwd true clear name path, print _ w)).
  set (s2 := (mkReloader _ cb None ∅ cwd false clear name path, w)).
  assert (same_but_console s1 s2) as H
      by (apply same_but_console_intro; reflexivity).
  destruct (dispatch_console acts s1 s2 H Hpath) as [_ Hst].
  destruct (dispatch acts s1) as [o1 [r1 w1]].
  destruct (dispatch acts s2) as [o2 [r2 w2]].
  exists r1, r2. eexists. eexists. split; [reflexivity | split; [reflexivity |]].
  cbn [fst snd] in Hst.
  destruct (same_but_console_elim _ _ _ _ Hst)
    as ((Ht & Hcb & Hm & Hh & Hwp & Hcl & Hn & Hp) & (Hf & Hs & Hhd & Hc & Hr)).
  apply same_but_console_intro; simpl; congruence.
Qed.

(** *** When the failure lines can be printed *)

(** With a one-character [old] the scan replaces character by
    character. *)
Lemma scan_dot_cons (c : ascii) (s : string) :
  PyStr.replace_scan "." "/" 0 (String c s)
  = String (if Ascii.eqb c "." then "/" else c)%char (PyStr.replace_scan "." "/" 0 s).
Proof.
  cbn [PyStr.replace_scan String.prefix String.length Nat.sub].
  destruct (ascii_dec "." c) as [<- | Hne].
  - destruct s; reflexivity.
  - destruct (Ascii.eqb_spec c ".") as [-> | _]; [contradiction | reflexivity].
Qed.

(** A component that holds a character other than a slash and a dot is
    kept by the parser. *)
Lemma rel_parts_not_nil (s : string) (c : ascii) :
  In c (list_ascii_of_string s) -> c <> "/"%char -> c <> "."%char -> rel_parts s <> [].
Proof.
  intros Hin Hslash Hdot. unfold rel_parts.
  induction s as [| a s IH]; [inversion Hin |].
  assert (forall h : string, keep_part h = true -> keep_part (String a h) = true) as Hgrow.
  { intros [| b h] Hk; [discriminate |]. unfold keep_part. simpl.
    destruct (Ascii.eqb a "."); reflexivity. }
  simpl in Hin. simpl.
  destruct (Ascii.eqb_spec a "/") as [-> | Ha].
  - destruct Hin as [<- | Hin]; [contradiction |]. simpl. now apply IH.
  - pose proof (split_not_nil "/" s) as Hne.
    destruct (PyStr.split "/" s) as [| h t]; [contradiction |].
    destruct Hin as [-> | Hin].
    + simpl. assert (keep_part (String c h) = true) as ->; [| discriminate].
      unfold keep_part. simpl. destruct (Ascii.eqb_spec c ".") as [-> | _]; [contradiction |].
      reflexivity.
    + specialize (IH Hin). simpl in IH. simpl.
      destruct (keep_part h) eqn:Hk.
      * rewrite (Hgrow h Hk). discriminate.
      * destruct (keep_part (String a h)); [discriminate | exact IH].
Qed.

Lemma replace_dot_keeps (s : string) (c : ascii) :
  In c (list_ascii_of_string s) -> c <> "."%char ->
  In c (list_ascii_of_string (PyStr.replace s "." sep)).
Proof.
  intros Hin Hdot. unfold PyStr.replace. simpl.
  induction s as [| a s IH]; [inversion Hin |].
  rewrite scan_dot_cons. simpl in *.
  destruct Hin as [-> | Hin].
  - left. destruct (Ascii.eqb_spec c ".") as [-> | _]; [contradiction | reflexivity].
  - right. now apply IH.
Qed.

(** A module name with one character that is neither a dot nor a slash
    gives a failure path with a name: the second failure line prints. *)
Lemma failure_path_defined (self : CodeReloader) (c : ascii) :
  In c (list_ascii_of_string (module_name self)) -> c <> "."%char -> c <> "/"%char ->
  is_Some (failure_path self).
Proof.
  intros Hin Hdot Hslash. unfold failure_path, with_suffix_py.
  pose proof (rel_parts_not_nil _ c (replace_dot_keeps _ c Hin Hdot) Hslash Hdot) as Hparts.
  destruct (String.eqb_spec (name (Path_ (PyStr.replace (module_name self) "." sep))) "")
    as [E | _]; [| eexists; reflexivity].
  exfalso. unfold name, Path_, rel_parts in *. simpl in E.
  destruct (List.filter keep_part _) as [| h t] eqn:Hf; [contradiction |].
  assert (List.last (h :: t) "" ∈ h :: t) as Hlast.
  { apply list_elem_of_In. clear. revert h. induction t as [| x t IH]; intros h.
    - now left.
    - right. apply IH. }
  rewrite E, <- Hf in Hlast. apply list_elem_of_In, List.filter_In in Hlast.
  destruct Hlast as [_ Hk]. discriminate.
Qed.

(** *** The command line *)

Lemma take_actions_spec (acts : list flag) (args : Namespace) :
  match take_actions acts args with
  | None => existsb (flag_eqb FHelp) acts = true
  | Some args' =>
      existsb (flag_eqb FHelp) acts = false
      /\ arg_module args' = arg_module args
      /\ arg_version args' = arg_version args || existsb (flag_eqb FVersion) acts
  end.
Proof.
  revert args. induction acts as [| a acts IH]; intros args.
  - simpl. now rewrite orb_false_r.
  - destruct a; cbn [take_actions existsb flag_eqb orb]; [reflexivity | | |].
    + specialize (IH (mkArgs (arg_module args) true (arg_noUI args) (arg_clear args))).
      destruct (take_actions acts _) as [args' |]; [| exact IH].
      destruct IH as (H1 & H2 & H3). cbn [arg_module arg_version] in *.
      rewrite H3. now rewrite orb_true_r.
    + specialize (IH (mkArgs (arg_module args) (arg_version args) true (arg_clear args))).
      destruct (take_actions acts _) as [args' |]; exact IH.
    + specialize (IH (mkArgs (arg_module args) (arg_version args) (arg_noUI args) true)).
      destruct (take_actions acts _) as [args' |]; exact IH.
Qed.

Lemma flags_of_option (t : string) :
  is_option_word t = false -> flags_of t = [].
Proof. unfold is_option_word, flags_of. now destruct (_parse_optional t). Qed.

Lemma front_cons (t : string) (rest : list string) :
  existsb is_option_word (front (t :: rest)) = true ->
  front (t :: rest) = t :: front rest /\ after_separator (t :: rest) = after_separator rest.
Proof.
  cbn [front after_separator]. destruct (String.eqb t "--"); [discriminate | now split].
Qed.

Lemma front_plain (argv : list string) :
  existsb is_option_word (front argv) = false ->
  forall f, holds f argv = false.
Proof.
  intros H f. unfold holds. induction (front argv) as [| t l IH]; [reflexivity |].
  cbn [existsb] in *. apply orb_false_iff in H as [Ht Hl].
  now rewrite (flags_of_option t Ht), IH.
Qed.

Lemma targets_plain (argv : list string) :
  existsb is_option_word (front argv) = false ->
  targets argv = front argv ++ after_separator argv.
Proof.
  intros H. unfold targets. f_equal.
  induction (front argv) as [| t l IH]; [reflexivity |].
  cbn [existsb List.filter] in *. apply orb_false_iff in H as [Ht Hl].
  rewrite Ht. cbn [negb]. now rewrite IH.
Qed.

(** The end of the reading. *)
Lemma finish_spec (argv : list string) (args : Namespace) (extras : bool) :
  existsb is_option_word (front argv) = false ->
  match finish args argv extras with
  | Parsed ns =>
      holds FHelp argv = false
      /\ arg_version ns = arg_version args || holds FVersion argv
      /\ arg_module ns = hd_error (given args ++ targets argv)
  | HelpExit => False
  | UsageError => True
  end.
Proof.
  intros Hplain.
  rewrite (targets_plain argv Hplain), !(front_plain argv Hplain), orb_false_r.
  unfold finish, consume_last, given.
  destruct (arg_module args) as [m |] eqn:Hm.
  - destruct argv; [| exact I]. destruct extras; [exact I |]. now rewrite Hm.
  - destruct argv as [| a [| b [| c rest]]]; cbn [front after_separator].
    + destruct extras; [exact I |]. now rewrite Hm.
    + destruct (String.eqb a "--"); destruct extras; try exact I; now rewrite ?Hm.
    + destruct (String.eqb a "--"); [destruct extras; [exact I | now repeat split] |].
      destruct (String.eqb b "--"); [| exact I].
      destruct extras; [exact I | now repeat split].
    + exact I.
Qed.

(** What the parser has read when it returns arguments, and when it
    exits after the help. *)
Lemma parse_loop_spec (argv : list string) :
  forall (args : Namespace) (extras : bool),
  match parse_loop argv args extras with
  | Parsed ns =>
      holds FHelp argv = false
      /\ arg_version ns = arg_version args || holds FVersion argv
      /\ arg_module ns = hd_error (given args ++ targets argv)
  | HelpExit => holds FHelp argv = true
  | UsageError => True
  end.
Proof.
  induction argv as [| t rest IH]; intros args extras.
  - pose proof (finish_spec [] args extras eq_refl) as H. cbn [parse_loop].
    now destruct (finish args [] extras).
  - cbn [parse_loop].
    destruct (existsb is_option_word (front (t :: rest))) eqn:Hopt.
    2: { pose proof (finish_spec (t :: rest) args extras Hopt) as H.
         now destruct (finish args (t :: rest) extras). }
    destruct (front_cons t rest Hopt) as [Hfront Hafter].
    assert (forall f, holds f (t :: rest) = existsb (flag_eqb f) (flags_of t) || holds f rest)
      as Hholds by (intros f; unfold holds; now rewrite Hfront).
    assert (targets (t :: rest)
            = (if is_option_word t then [] else [t]) ++ targets rest) as Htargets.
    { unfold targets. rewrite Hfront, Hafter. cbn [List.filter].
      destruct (is_option_word t); cbn [negb]; [reflexivity |]. reflexivity. }
    rewrite !Hholds, Htargets. unfold is_option_word, flags_of.
    destruct (_parse_optional t) as [| o a e | |].
    + (* a positional *)
      cbn [existsb orb].
      destruct (arg_module args) as [m |] eqn:Hm.
      * specialize (IH args true). unfold given in *. rewrite Hm in *.
        destruct (parse_loop rest args true); exact IH.
      * specialize (IH (mkArgs (Some t) (arg_version args) (arg_noUI args) (arg_clear args))
                     extras).
        unfold given in *. rewrite Hm. cbn [arg_module arg_version] in IH.
        destruct (parse_loop rest _ extras); exact IH.
    + (* an option *)
      destruct (consume_optional o a e) as [acts |]; [| exact I].
      pose proof (take_actions_spec acts args) as Hacts.
      destruct (take_actions acts args) as [args' |].
      * destruct Hacts as (Hh & Hmod & Hver). specialize (IH args' extras).
        unfold given in *. rewrite Hmod in IH. rewrite Hh. cbn [orb app].
        destruct (parse_loop rest args' extras); try exact IH.
        destruct IH as (H1 & H2 & H3). rewrite H2, Hver, orb_assoc. now repeat split.
      * now rewrite Hacts.
    + (* no such option *)
      cbn [existsb orb app]. specialize (IH args true).
      destruct (parse_loop rest args true); exact IH.
    + exact I.
Qed.

Lemma parse_args_spec (argv : list string) :
  match parse_args argv with
  | Parsed ns =>
      holds FHelp argv = false
      /\ arg_version ns = holds FVersion argv
      /\ arg_module ns = hd_error (targets argv)
  | HelpExit => holds FHelp argv = true
  | UsageError => True
  end.
Proof.
  unfold parse_args. destruct (existsb is_ambiguous (front argv)); [exact I |].
  exact (parse_loop_spec argv (mkArgs None false false false) false).
Qed.

(** C8, as the code has it.  On a command line the parser accepts (it
    exits with code 2 on the others): if it holds the help flag, the
    usage help is printed and the exit code is 0, whatever else it
    holds; otherwise, with the version flag the banner is printed and
    the exit code is 0, whatever the other arguments are; with no
    target, or an empty one, and no version flag the usage help is
    printed and the exit code is 1; with a target that has no candidate
    on disk the error is printed and the exit code is 1.  A flag is
    held when a word before the first [--] sets it, spelled in full,
    abbreviated or in a cluster of short options; the targets are the
    words that are not read as options. *)
Theorem command_line_exit_codes (argv : list string) (acts : list action) (w : World)
    (Haccepted : parse_args argv <> UsageError) :
  (holds FHelp argv = true -> hot_reload argv acts w = (0%Z, print Help w))
  /\ (holds FHelp argv = false ->
      (holds FVersion argv = true ->
         hot_reload argv acts w = (0%Z, print (Logo VERSION) w))
      /\ (holds FVersion argv = false ->
          hd_error (targets argv) = None \/ hd_error (targets argv) = Some "" ->
          hot_reload argv acts w = (1%Z, print Help w))
      /\ (holds FVersion argv = false ->
          forall m : string, hd_error (targets argv) = Some m -> m <> "" ->
            let target := PyStr.replace (PyStr.replace m ".py" "") ".py" "" in
            first_existing (fs w) (possible_paths target) = None ->
            hot_reload argv acts w
            = (1%Z, print (Error (not_found_message target (possible_paths target))) w))).
Proof.
  unfold hot_reload. pose proof (parse_args_spec argv) as Hspec.
  destruct (parse_args argv) as [args | |]; [| | contradiction].
  - destruct Hspec as (Hhelp & Hver & Hmod).
    split; [intros H; congruence | intros _].
    destruct (main_cases args acts w) as (M1 & M2 & M3).
    split; [| split].
    + intros H. apply M1. congruence.
    + intros H [Hnone | Hempty].
      * apply M2; congruence.
      * unfold main. rewrite Hver, H, Hmod, Hempty. reflexivity.
    + intros H m Hm Hne Hnone.
      refine (M3 m _ _ Hne Hnone); congruence.
  - split; [reflexivity | intros H; congruence].
Qed.

(** *** More on the Digest Tracker *)

Lemma set_file_hashes_same (r : CodeReloader) : set_file_hashes (file_hashes r) r = r.
Proof. now destruct r. Qed.

(** The state a change check leaves, whatever it answers. *)
Lemma has_file_changed_state (p : string) (r : CodeReloader) (w : World) :
  snd (_has_file_changed p (r, w))
  = (set_file_hashes (digests_after p r w) r,
     match fs w !! p with
     | Some (File _) => log_hashed p w
     | _ => w
     end).
Proof.
  rewrite has_file_changed_run. unfold digests_after.
  destruct (fs w !! p) as [[content | |] |]; cbn zeta;
    try (cbn [snd]; now rewrite set_file_hashes_same).
  destruct (file_hashes r !! p) as [recorded |] eqn:Hrec; [| reflexivity].
  destruct (String.eqb_spec (Hashlib.md5 content) recorded) as [<- | Hne]; cbn [negb snd];
    [| reflexivity].
  now rewrite (insert_id _ _ _ Hrec), set_file_hashes_same.
Qed.

Lemma has_file_changed_answer (p : string) (r : CodeReloader) (w : World) :
  fst (_has_file_changed p (r, w))
  = match fs w !! p with
    | None => Return false
    | Some Dir => Raise (OSError ("Is a directory: " +:+ p))
    | Some Unreadable => Raise (OSError ("Permission denied: " +:+ p))
    | Some (File content) =>
        Return (negb (bool_decide (file_hashes r !! p = Some (Hashlib.md5 content))))
    end.
Proof.
  rewrite has_file_changed_run.
  destruct (fs w !! p) as [[content | |] |]; cbn zeta; try reflexivity.
  destruct (file_hashes r !! p) as [recorded |] eqn:Hrec.
  - destruct (String.eqb_spec (Hashlib.md5 content) recorded) as [<- | Hne]; cbn [negb fst].
    + now rewrite bool_decide_eq_true_2.
    + rewrite bool_decide_eq_false_2; [reflexivity | congruence].
  - cbn [fst]. now rewrite bool_decide_eq_false_2.
Qed.

(** X2. After a change check that returned, a second check of the same
    path with the disk untouched answers "unchanged" and leaves the
    reloader as the first check left it. *)
Theorem has_file_changed_second_check (p : string) (r : CodeReloader) (w : World) (b : bool) :
  fst (_has_file_changed p (r, w)) = Return b ->
  let st1 := snd (_has_file_changed p (r, w)) in
  fst (_has_file_changed p st1) = Return false
  /\ fst (snd (_has_file_changed p st1)) = fst st1.
Proof.
  intros Hfirst st1. subst st1.
  rewrite has_file_changed_answer in Hfirst.
  rewrite has_file_changed_state. unfold digests_after.
  destruct (fs w !! p) as [[content | |] |] eqn:Hfs; try discriminate.
  - rewrite has_file_changed_answer, has_file_changed_state. unfold digests_after.
    cbn [fs log_hashed file_hashes set_file_hashes]. rewrite Hfs. split.
    + rewrite bool_decide_eq_true_2; [reflexivity | apply lookup_insert_eq].
    + cbn [fst]. now rewrite insert_insert_eq.
  - rewrite set_file_hashes_same.
    rewrite has_file_changed_answer, has_file_changed_state. unfold digests_after.
    rewrite Hfs. split; [reflexivity |]. cbn [fst]. apply set_file_hashes_same.
Qed.

(** X3. A change check writes at most the entry of the path it is
    given: every other entry of the digest table, every other attribute
    of the reloader, the disk, [sys.path], the console, the callback
    trace and the reload count are as before; and after a check of a
    file the recorded digest of that path is the digest of its current
    bytes. *)
Theorem has_file_changed_frame (p : string) (r : CodeReloader) (w : World) :
  let st' := snd (_has_file_changed p (r, w)) in
  (forall k : string, k <> p -> file_hashes (fst st') !! k = file_hashes r !! k)
  /\ set_file_hashes (file_hashes r) (fst st') = r
  /\ fs (snd st') = fs w /\ sys_path (snd st') = sys_path w /\ stdout (snd st') = stdout w
  /\ called (snd st') = called w /\ reloads (snd st') = reloads w
  /\ (forall content, fs w !! p = Some (File content) ->
        file_hashes (fst st') !! p = Some (Hashlib.md5 content)).
Proof.
  intros st'. subst st'. rewrite has_file_changed_state. unfold digests_after.
  cbn [fst snd]. repeat split.
  - intros k Hk. destruct (fs w !! p) as [[content | |] |]; cbn [file_hashes set_file_hashes];
      try reflexivity.
    now apply lookup_insert_ne.
  - now destruct r.
  - now destruct (fs w !! p) as [[content | |] |].
  - now destruct (fs w !! p) as [[content | |] |].
  - now destruct (fs w !! p) as [[content | |] |].
  - now destruct (fs w !! p) as [[content | |] |].
  - now destruct (fs w !! p) as [[content | |] |].
  - intros content ->. cbn [file_hashes set_file_hashes]. apply lookup_insert_eq.
Qed.

(** *** More on the Change Watcher *)

Lemma set_module_same (r : CodeReloader) : set_module (module r) r = r.
Proof. now destruct r. Qed.

(** [reload_module] changes the handle at most. *)
Lemma reload_module_self (r : CodeReloader) (w : World) :
  exists m : option Handle, fst (snd (reload_module (r, w))) = set_module m r.
Proof.
  pose proof (reload_module_state r w) as (H & _). cbn zeta in H.
  destruct (load_attempt r w) as [h | e]; destruct H as [-> _].
  - now exists (Some h).
  - exists (module r). now rewrite set_module_same.
Qed.

(** Everything a notification leaves behind, the console apart. *)
Lemma on_modified_state (src : string) (r : CodeReloader) (w : World) :
  let st1 := snd (on_modified src (r, w)) in
  let key := str (resolve (fs w) (Path_ src)) in
  fs (snd st1) = fs w
  /\ reloads (snd st1) = reloads w + (if fires src r w then 1 else 0)
  /\ sys_path (snd st1)
     = (if fires src r w then sys_path (register (paths_to_add r) w) else sys_path w)
  /\ exists m : option Handle,
       fst st1
       = set_module m
           (set_file_hashes
              (if PyStr.endswith src ".py"
                  && bool_decide (resolve (fs w) (Path_ src) = resolve (fs w) (module_file_path r))
               then digests_after key r w else file_hashes r) r).
Proof.
  intros st1 key. subst st1. rewrite on_modified_run. unfold fires. fold key.
  destruct (PyStr.endswith src ".py"); cbn [andb].
  2: { cbn [fst snd]. repeat split; [lia |].
       exists (module r). now rewrite set_file_hashes_same, set_module_same. }
  destruct (bool_decide _); cbn [andb].
  2: { cbn [fst snd]. repeat split; [lia |].
       exists (module r). now rewrite set_file_hashes_same, set_module_same. }
  pose proof (has_file_changed_answer key r w) as Hans.
  pose proof (has_file_changed_state key r w) as Hst.
  destruct (_has_file_changed key (r, w)) as [o st']. cbn [fst snd] in Hans, Hst. subst o st'.
  destruct (fs w !! key) as [[content | |] |] eqn:Hfs.
  - destruct (bool_decide (file_hashes r !! key = Some (Hashlib.md5 content))); cbn [negb].
    + cbn [fst snd fs reloads log_hashed]. repeat split; [lia |].
      eexists. now rewrite set_module_same.
    + pose proof (reload_module_state (set_file_hashes (digests_after key r w) r)
                    (log_hashed key w)) as (_ & Hr & Hf & Hs & _).
      destruct (reload_module_self (set_file_hashes (digests_after key r w) r)
                  (log_hashed key w)) as [m Hm].
      rewrite Hr, Hf, Hs, Hm. cbn [fs reloads log_hashed]. repeat split; [lia | |].
      * now apply register_ext.
      * now exists m.
  - cbn [fst snd]. repeat split; [lia |]. eexists. now rewrite set_module_same.
  - cbn [fst snd]. repeat split; [lia |]. eexists. now rewrite set_module_same.
  - cbn [fst snd]. repeat split; [lia |]. eexists. now rewrite set_module_same.
Qed.

(** X4. A notification calls [reload_module] once when its path ends
    in [.py], resolves to the resolved path of the watched file, names a
    file at that moment, and the digest of that file is not the
    recorded one; in every other case it calls it not at all, and the
    handle, the digest table and [sys.path] are as before.  When it
    calls it, the digest entry of the file has changed. *)
Theorem on_modified_reload_count (src : string) (r : CodeReloader) (w : World) :
  let st1 := snd (on_modified src (r, w)) in
  let key := str (resolve (fs w) (Path_ src)) in
  reloads (snd st1) = reloads w + (if fires src r w then 1 else 0)
  /\ if fires src r w
     then file_hashes (fst st1) !! key <> file_hashes r !! key
     else module (fst st1) = module r /\ file_hashes (fst st1) = file_hashes r
          /\ sys_path (snd st1) = sys_path w.
Proof.
  intros st1 key. subst st1 key.
  destruct (on_modified_state src r w) as (_ & Hr & Hs & m & Hself).
  split; [exact Hr |].
  pose proof (has_file_changed_answer (str (resolve (fs w) (Path_ src))) r w) as Hans.
  pose proof (has_file_changed_state (str (resolve (fs w) (Path_ src))) r w) as Hst.
  cbv zeta in *. unfold fires in *.
  set (key := str (resolve (fs w) (Path_ src))) in *.
  destruct (PyStr.endswith src ".py" && _ && _) eqn:Hf.
  - rewrite Hself. cbn [file_hashes set_module set_file_hashes].
    unfold digests_after.
    destruct (PyStr.endswith src ".py"); [| discriminate].
    destruct (bool_decide (resolve (fs w) (Path_ src) = _)); [| discriminate].
    cbn [andb] in *.
    destruct (fs w !! key) as [[content | |] |]; try discriminate.
    rewrite lookup_insert_eq.
    destruct (bool_decide_reflect (file_hashes r !! key = Some (Hashlib.md5 content)))
      as [| Hne]; [discriminate | congruence].
  - rewrite Hs. clear Hr Hs m Hself.
    rewrite on_modified_run. fold key.
    destruct (PyStr.endswith src ".py"); [| now repeat split].
    destruct (bool_decide (resolve (fs w) (Path_ src) = _)); [| now repeat split].
    cbn [andb] in Hf.
    destruct (_has_file_changed key (r, w)) as [o st']. cbn [fst snd] in Hans, Hst. subst o st'.
    unfold digests_after.
    destruct (fs w !! key) as [[content | |] |];
      try (cbn [fst snd]; rewrite set_file_hashes_same; now repeat split).
    destruct (bool_decide_reflect (file_hashes r !! key = Some (Hashlib.md5 content)))
      as [Hrec | Hne]; [| discriminate].
    cbn [negb fst snd module file_hashes set_file_hashes]. repeat split.
    now apply insert_id.
Qed.

(** X5. Once a notification has been handled, the same notification
    again, with the disk untouched, does not call [reload_module]: the
    handle and the digest table stay as the first one left them. *)
Theorem on_modified_repeated (src : string) (r : CodeReloader) (w : World) :
  let st1 := snd (on_modified src (r, w)) in
  let st2 := snd (on_modified src st1) in
  fires src (fst st1) (snd st1) = false
  /\ reloads (snd st2) = reloads (snd st1)
  /\ module (fst st2) = module (fst st1)
  /\ file_hashes (fst st2) = file_hashes (fst st1).
Proof.
  intros st1 st2.
  destruct (on_modified_state src r w) as (Hfs & _ & _ & m & Hself). fold st1 in Hfs, Hself.
  assert (fires src (fst st1) (snd st1) = false) as Hidle.
  { unfold fires. rewrite Hfs, Hself.
    cbn [module_file_path set_module set_file_hashes file_hashes].
    destruct (PyStr.endswith src ".py"); [| reflexivity].
    destruct (bool_decide _); [| reflexivity]. cbn [andb]. unfold digests_after.
    destruct (fs w !! _) as [[content | |] |]; try reflexivity.
    rewrite bool_decide_eq_true_2; [reflexivity | apply lookup_insert_eq]. }
  split; [exact Hidle |].
  subst st2. destruct st1 as [r1 w1]. cbn [fst snd] in *.
  destruct (on_modified_state src r1 w1) as (_ & Hr & _ & m2 & Hself2).
  rewrite Hidle in Hr. rewrite Hr. split; [lia |].
  (* without a reload the reloader is the one the digest check leaves *)
  clear Hr m2 Hself2.
  rewrite on_modified_run. unfold fires in Hidle.
  destruct (PyStr.endswith src ".py"); [| now split].
  destruct (bool_decide (resolve (fs w1) (Path_ src) = _)); [| now split].
  cbn [andb] in Hidle.
  set (key := str (resolve (fs w1) (Path_ src))) in *.
  pose proof (has_file_changed_answer key r1 w1) as Hans.
  pose proof (has_file_changed_state key r1 w1) as Hst.
  destruct (_has_file_changed key (r1, w1)) as [o st']. cbn [fst snd] in Hans, Hst. subst o st'.
  unfold digests_after.
  destruct (fs w1 !! key) as [[content | |] |]; try (cbn [fst snd]; now rewrite set_file_hashes_same).
  destruct (bool_decide_reflect (file_hashes r1 !! key = Some (Hashlib.md5 content)))
    as [Hrec | Hrec]; [| discriminate].
  cbn [negb fst snd module file_hashes set_file_hashes]. split; [reflexivity |].
  now apply insert_id.
Qed.

(** *** More on the load path *)

Lemma extends_by_refl (roots l : list string) : extends_by roots l l.
Proof. exists []. repeat split; [constructor | inversion H | inversion H]. Qed.

Lemma extends_by_trans (roots l1 l2 l3 : list string) :
  extends_by roots l1 l2 -> extends_by roots l2 l3 -> extends_by roots l1 l3.
Proof.
  intros (a1 & -> & Hnd1 & H1) (a2 & -> & Hnd2 & H2).
  exists (a2 ++ a1). split; [now rewrite app_assoc | split].
  - apply NoDup_app. repeat split; try assumption.
    intros x Hx2 Hx1. destruct (H2 x Hx2) as [_ Hno]. apply Hno.
    apply elem_of_app. now left.
  - intros p Hp. apply elem_of_app in Hp as [Hp | Hp].
    + destruct (H2 p Hp) as [Hr Hno]. split; [exact Hr |].
      intros Hin. apply Hno. apply elem_of_app. now right.
    + now apply H1.
Qed.

Lemma extends_by_length (roots old new : list string) :
  extends_by roots old new -> length new <= length old + length roots.
Proof.
  intros (added & -> & Hnd & H). rewrite length_app.
  assert (length added <= length roots); [| lia].
  apply submseteq_length, NoDup_submseteq; [exact Hnd |].
  intros x Hx. now apply H.
Qed.

Lemma add_to_path_extends (w : World) (p : string) :
  extends_by [p] (sys_path w) (sys_path (add_to_path w p))
  /\ (sys_path (add_to_path w p) <> sys_path w -> exists_ (fs w) p = true).
Proof.
  unfold add_to_path. destruct (exists_ (fs w) p); cbn [andb].
  - destruct (bool_decide_reflect (p ∈ sys_path w)) as [Hin | Hout]; cbn [negb].
    + split; [apply extends_by_refl | congruence].
    + split; [| reflexivity]. exists [p]. repeat split.
      * apply NoDup_singleton.
      * apply list_elem_of_singleton in H. subst. apply list_elem_of_here.
      * apply list_elem_of_singleton in H. now subst.
  - split; [apply extends_by_refl | congruence].
Qed.

Lemma extends_by_weaken (roots roots' old new : list string) :
  (forall p, p ∈ roots -> p ∈ roots') -> extends_by roots old new -> extends_by roots' old new.
Proof.
  intros Hsub (added & -> & Hnd & H). exists added. repeat split; try assumption.
  - apply Hsub. now apply H.
  - now apply H.
Qed.

Lemma register_extends (roots : list string) (w : World) :
  extends_by roots (sys_path w) (sys_path (register roots w)).
Proof.
  revert w. induction roots as [| r roots IH]; intros w; [apply extends_by_refl |].
  unfold register in *. cbn [List.fold_left].
  apply (extends_by_trans _ _ (sys_path (add_to_path w r))).
  - apply (extends_by_weaken [r]); [| apply add_to_path_extends].
    intros p Hp. apply list_elem_of_singleton in Hp. subst. apply list_elem_of_here.
  - apply (extends_by_weaken roots); [| apply IH].
    intros p Hp. now apply list_elem_of_further.
Qed.

(** Only roots that exist are put on the load path. *)
Lemma register_existing (roots : list string) (w : World) (p : string) :
  p ∈ sys_path (register roots w) -> p ∉ sys_path w -> exists_ (fs w) p = true.
Proof.
  revert w. induction roots as [| r roots IH]; intros w Hin Hout; [contradiction |].
  unfold register in *. cbn [List.fold_left] in Hin.
  destruct (decide (p ∈ sys_path (add_to_path w r))) as [Hmid | Hmid].
  - unfold add_to_path in Hmid.
    destruct (exists_ (fs w) r) eqn:Hex; cbn [andb] in Hmid; [| contradiction].
    destruct (negb _); [| contradiction].
    cbn [sys_path set_sys_path] in Hmid. apply elem_of_cons in Hmid as [-> | Hmid];
      [exact Hex | contradiction].
  - rewrite <- (add_to_path_fs w r). now apply IH.
Qed.

(** X6. Registration puts entries at the front of [sys.path] and
    nowhere else: what was there stays, in the same order, behind the
    new entries; the new entries are search roots that exist on disk and
    were not on the path, each put once. *)
Theorem add_current_dir_to_path_front (self : CodeReloader) (w : World) :
  let w' := snd (snd (_add_current_dir_to_path (self, w))) in
  exists added : list string,
    sys_path w' = added ++ sys_path w
    /\ NoDup added
    /\ length added <= 2
    /\ forall p : string,
         p ∈ added -> p ∈ paths_to_add self /\ (p ∉ sys_path w) /\ exists_ (fs w) p = true.
Proof.
  rewrite add_current_dir_to_path_run. cbn [snd].
  pose proof (register_extends (paths_to_add self) w) as Hext.
  pose proof (extends_by_length _ _ _ Hext) as Hlen.
  destruct Hext as (added & Heq & Hnd & H).
  exists added. rewrite Heq in *. rewrite length_app in Hlen. cbn [paths_to_add length] in Hlen.
  repeat split; try assumption; try lia; try now apply H.
  apply (register_existing (paths_to_add self)).
  - rewrite Heq. apply elem_of_app. now left.
  - now apply H.
Qed.

Lemma length_append_str (a b : string) :
  String.length (a +:+ b) = String.length a + String.length b.
Proof. induction a as [| c a IH]; [reflexivity |]. rewrite append_cons. simpl. now rewrite IH. Qed.

Lemma join_snoc_length (l : list string) (x : string) :
  l <> [] ->
  String.length (PyStr.join sep (l ++ [x]))
  = String.length (PyStr.join sep l) + 1 + String.length x.
Proof.
  induction l as [| a l IH]; [contradiction |]. intros _.
  destruct l as [| b l].
  - cbn [app PyStr.join]. rewrite !length_append_str. simpl. lia.
  - change (PyStr.join sep ((a :: b :: l) ++ [x]))
      with (a +:+ sep +:+ PyStr.join sep ((b :: l) ++ [x])).
    change (PyStr.join sep (a :: b :: l)) with (a +:+ sep +:+ PyStr.join sep (b :: l)).
    rewrite !length_append_str, IH by discriminate. lia.
Qed.

(** The [Utils] directory of a path is another path string. *)
Lemma str_truediv_Utils (p : Path) : str (truediv p "Utils") <> str p.
Proof.
  unfold truediv. cbn [Path_ root parts String.eqb]. change (rel_parts "Utils") with ["Utils"].
  change (String.eqb (splitroot "Utils") "") with true. cbn match.
  unfold str. cbn [root parts]. intros H.
  apply (f_equal String.length) in H.
  destruct (parts p) as [| a l] eqn:Hparts.
  - cbn [app] in H. destruct (root p) as [| c r0].
    + discriminate.
    + cbn [PyStr.join] in H. rewrite !length_append_str in H. simpl in H. lia.
  - assert (String.length (PyStr.join sep ((a :: l) ++ ["Utils"]))
            = String.length (PyStr.join sep (a :: l)) + 1 + 5) as Hj
        by (now rewrite join_snoc_length).
    destruct (root p) as [| c r0];
      (destruct ((a :: l) ++ ["Utils"]) as [| x y] eqn:E; [discriminate |]);
      rewrite !length_append_str, Hj in H; lia.
Qed.

(** X7. When the working directory and its [Utils] directory both
    exist and neither is on [sys.path], registration leaves [Utils]
    first and the working directory second, in front of what was
    there: a module of [Utils] shadows one of the same name in the
    working directory. *)
Theorem add_current_dir_to_path_order (self : CodeReloader) (w : World) :
  let here_ := str (watch_path self) in
  let utils := str (truediv (watch_path self) "Utils") in
  exists_ (fs w) here_ = true -> exists_ (fs w) utils = true ->
  here_ ∉ sys_path w -> utils ∉ sys_path w ->
  sys_path (snd (snd (_add_current_dir_to_path (self, w)))) = utils :: here_ :: sys_path w.
Proof.
  intros here_ utils Hh Hu Hnh Hnu.
  rewrite add_current_dir_to_path_run. cbn [snd]. unfold register, paths_to_add.
  cbn [List.fold_left]. fold here_ utils.
  unfold add_to_path at 2. rewrite Hh. rewrite bool_decide_eq_false_2 by exact Hnh.
  cbn [andb negb]. unfold add_to_path. cbn [fs sys_path set_sys_path]. rewrite Hu.
  rewrite bool_decide_eq_false_2; [reflexivity |].
  intros Hin. apply elem_of_cons in Hin as [Heq | Hin]; [| contradiction].
  now apply (str_truediv_Utils (watch_path self)).
Qed.

(** *** More on the Reloader *)

Lemma set_module_twice (m : option Handle) (r : CodeReloader) :
  set_module (module r) (set_module m r) = r.
Proof. now destruct r. Qed.

(** X8. A call of [reload_module] changes the handle and nothing else
    in the reloader; it leaves the disk and the digest table alone,
    computes no hash, counts as one call, and changes [sys.path] only
    by putting search roots that were not there in front of it. *)
Theorem reload_module_frame (r : CodeReloader) (w : World) :
  let st := snd (reload_module (r, w)) in
  set_module (module r) (fst st) = r
  /\ file_hashes (fst st) = file_hashes r
  /\ fs (snd st) = fs w
  /\ hashed (snd st) = hashed w
  /\ reloads (snd st) = S (reloads w)
  /\ extends_by (paths_to_add r) (sys_path w) (sys_path (snd st)).
Proof.
  intros st. subst st.
  destruct (reload_module_self r w) as [m Hm].
  pose proof (reload_module_state r w) as (_ & Hr & Hf & Hs & Hh). cbn zeta in *.
  rewrite Hm, Hr, Hf, Hs, Hh. repeat split.
  - apply set_module_twice.
  - apply register_extends.
Qed.

Lemma announce_stdout (r : CodeReloader) (w : World) :
  stdout (announce r w) = stdout w ++ announce_lines r.
Proof.
  unfold announce, announce_lines.
  destruct (clear_on_reload r), (show_ui r); cbn [stdout print];
    rewrite <- ?app_assoc, ?app_nil_r; reflexivity.
Qed.

Lemma prepared_stdout (r : CodeReloader) (w : World) :
  stdout (prepared r w) = stdout w ++ announce_lines r.
Proof.
  unfold prepared. rewrite register_only_sys_path. cbn [stdout].
  now rewrite announce_stdout.
Qed.

Lemma report_failure_stdout (e : exn) (r : CodeReloader) (w : World) :
  stdout (snd (snd (report_failure e (r, w))))
  = stdout w ++ (if show_ui r then failure_lines r e else []).
Proof.
  rewrite report_failure_run. unfold failure_lines.
  destruct (show_ui r); [| cbn [snd]; now rewrite app_nil_r].
  cbn zeta. destruct (failure_path r); cbn [snd stdout print]; now rewrite <- ?app_assoc.
Qed.



(** *** Whole runs of the observer thread *)

(** A property kept by every change of the disk and by every
    notification is kept by a run. *)
Lemma dispatch_invariant (P : CodeReloader * World -> Prop) :
  (forall r w f, P (r, w) -> P (r, set_fs f w)) ->
  (forall src st, P st -> P (snd (on_modified src st))) ->
  forall acts st, P st -> P (snd (dispatch acts st)).
Proof.
  intros Hfs Hmod acts. induction acts as [| a acts IH]; intros [r w] H; [exact H |].
  destruct a as [p content | p | src].
  - rewrite dispatch_write. apply IH. now apply Hfs.
  - rewrite dispatch_remove. apply IH. now apply Hfs.
  - rewrite dispatch_modified. specialize (Hmod src (r, w) H).
    destruct (on_modified src (r, w)) as [[[] | e] st']; cbn [snd] in *.
    + now apply IH.
    + exact Hmod.
Qed.

(** A notification that does not get to [reload_module] leaves the
    reloader as it is, prints nothing and calls nothing. *)
Lemma on_modified_idle (src : string) (r : CodeReloader) (w : World) :
  fires src r w = false ->
  let st1 := snd (on_modified src (r, w)) in
  fst st1 = r /\ stdout (snd st1) = stdout w /\ called (snd st1) = called w.
Proof.
  intros Hidle st1. subst st1. rewrite on_modified_run. unfold fires in Hidle.
  destruct (PyStr.endswith src ".py"); [| now repeat split].
  destruct (bool_decide (resolve (fs w) (Path_ src) = _)); [| now repeat split].
  cbn [andb] in Hidle.
  set (key := str (resolve (fs w) (Path_ src))) in *.
  pose proof (has_file_changed_answer key r w) as Hans.
  pose proof (has_file_changed_state key r w) as Hst.
  destruct (_has_file_changed key (r, w)) as [o st']. cbn [fst snd] in Hans, Hst. subst o st'.
  unfold digests_after.
  destruct (fs w !! key) as [[content | |] |];
    try (cbn [fst snd]; rewrite set_file_hashes_same; now repeat split).
  destruct (bool_decide_reflect (file_hashes r !! key = Some (Hashlib.md5 content)))
    as [Hrec | Hrec]; [| discriminate].
  cbn [negb fst snd]. rewrite (insert_id _ _ _ Hrec), set_file_hashes_same. now repeat split.
Qed.

(** A notification that gets to [reload_module] is the digest update
    followed by that call. *)
Lemma on_modified_fired (src : string) (r : CodeReloader) (w : World) :
  fires src r w = true ->
  let key := str (resolve (fs w) (Path_ src)) in
  on_modified src (r, w)
  = reload_module (set_file_hashes (digests_after key r w) r, log_hashed key w).
Proof.
  intros Hfire key. rewrite on_modified_run. unfold fires in Hfire. fold key in Hfire.
  destruct (PyStr.endswith src ".py"); [| discriminate].
  destruct (bool_decide (resolve (fs w) (Path_ src) = _)); [| discriminate].
  cbn [andb] in Hfire. fold key.
  pose proof (has_file_changed_answer key r w) as Hans.
  pose proof (has_file_changed_state key r w) as Hst.
  destruct (_has_file_changed key (r, w)) as [o st']. cbn [fst snd] in Hans, Hst. subst o st'.
  destruct (fs w !! key) as [[content | |] |]; try discriminate.
  now rewrite Hfire.
Qed.

Lemma on_modified_config (src : string) (r : CodeReloader) (w : World) :
  config (fst (snd (on_modified src (r, w)))) = config r.
Proof.
  destruct (on_modified_state src r w) as (_ & _ & _ & m & ->). reflexivity.
Qed.

(** X11. The target, the callback, the watched directory, the two
    flags, the module name and the module file path of the reloader are
    the same after any run of notifications and disk changes as before
    it. *)
Theorem dispatch_keeps_config (acts : list action) (r : CodeReloader) (w : World) :
  config (fst (snd (dispatch acts (r, w)))) = config r.
Proof.
  apply (dispatch_invariant (fun st => config (fst st) = config r)); [easy | | reflexivity].
  intros src [r1 w1] H. cbn [fst] in *. now rewrite on_modified_config.
Qed.

Lemma config_paths_to_add (r1 r2 : CodeReloader) :
  config r1 = config r2 -> paths_to_add r1 = paths_to_add r2.
Proof. unfold config, paths_to_add. intros H. injection H as _ _ -> _ _ _ _. reflexivity. Qed.

(** X12. Over a whole run [sys.path] only grows at the front, by
    search roots that were not on it, each put once: it ends at most
    two entries longer than it started, with the old entries behind the
    new ones in their old order. *)
Theorem dispatch_sys_path (acts : list action) (r : CodeReloader) (w : World) :
  let w' := snd (snd (dispatch acts (r, w))) in
  extends_by (paths_to_add r) (sys_path w) (sys_path w')
  /\ length (sys_path w') <= length (sys_path w) + 2.
Proof.
  cbn zeta.
  assert (extends_by (paths_to_add r) (sys_path w)
            (sys_path (snd (snd (dispatch acts (r, w)))))) as Hext.
  { pose proof (dispatch_invariant
                  (fun st => config (fst st) = config r
                             /\ extends_by (paths_to_add r) (sys_path w) (sys_path (snd st))))
      as Hinv.
    apply Hinv.
    - intros r1 w1 f H. exact H.
    - intros src [r1 w1] [Hc Hx]. cbn [fst snd] in *. split.
      + now rewrite on_modified_config.
      + destruct (on_modified_state src r1 w1) as (_ & _ & Hs & _). rewrite Hs.
        destruct (fires src r1 w1); [| exact Hx].
        apply (extends_by_trans _ _ _ _ Hx).
        rewrite <- (config_paths_to_add _ _ Hc). apply register_extends.
    - split; [reflexivity | apply extends_by_refl]. }
  split; [exact Hext |].
  apply extends_by_length in Hext. cbn [paths_to_add length] in Hext. exact Hext.
Qed.

(** X13. Over a whole run the digest table changes only at a key
    that, at one of the notifications of the run, was the resolved path
    of the watched file against the disk as it was then, and named a
    file that could be read on that disk: no other path ever gets an
    entry. *)
Theorem dispatch_digest_keys (acts : list action) (r : CodeReloader) (w : World) (k : string) :
  file_hashes (fst (snd (dispatch acts (r, w)))) !! k <> file_hashes r !! k ->
  exists (f : FS) (content : list byte),
    f ∈ notified_disks acts (fs w)
    /\ k = str (resolve f (module_file_path r))
    /\ f !! k = Some (File content).
Proof.
  revert r w. induction acts as [| a acts IH]; intros r w Hne.
  - now contradiction Hne.
  - destruct a as [p c | p | src].
    + rewrite dispatch_write in Hne. exact (IH _ _ Hne).
    + rewrite dispatch_remove in Hne. exact (IH _ _ Hne).
    + rewrite dispatch_modified in Hne.
      destruct (on_modified_state src r w) as (Hfs & _ & _ & m & Hself).
      pose proof (on_modified_config src r w) as Hc.
      destruct (on_modified src (r, w)) as [o [r1 w1]]. cbn [fst snd] in *.
      assert (module_file_path r1 = module_file_path r) as Hp
          by (unfold config in Hc; now injection Hc).
      cbn [notified_disks].
      destruct (decide (file_hashes r1 !! k = file_hashes r !! k)) as [Heq | Hchg].
      * destruct o as [[] | e]; [| cbn [fst snd] in Hne; congruence].
        rewrite <- Heq in Hne. destruct (IH r1 w1 Hne) as (f & c & Hin & Hk & Hfile).
        exists f, c. rewrite Hfs, Hp in *. repeat split; try assumption.
        now apply list_elem_of_further.
      * clear Hne IH. rewrite Hself in Hchg. cbn [file_hashes set_module set_file_hashes] in Hchg.
        destruct (PyStr.endswith src ".py"); cbn [andb] in Hchg; [| now contradiction Hchg].
        destruct (bool_decide_reflect (resolve (fs w) (Path_ src)
                                       = resolve (fs w) (module_file_path r))) as [Hres | _];
          [| now contradiction Hchg].
        unfold digests_after in Hchg.
        destruct (fs w !! str (resolve (fs w) (Path_ src))) as [[c | |] |] eqn:Hfile;
          try now contradiction Hchg.
        destruct (decide (k = str (resolve (fs w) (Path_ src)))) as [-> | Hother].
        -- exists (fs w), c. rewrite <- Hres. repeat split; [apply list_elem_of_here | exact Hfile].
        -- rewrite lookup_insert_ne in Hchg by congruence. now contradiction Hchg.
Qed.

Lemma reload_module_quiet (r : CodeReloader) (w : World) :
  show_ui r = false ->
  stdout (snd (snd (reload_module (r, w))))
  = stdout w ++ (if clear_on_reload r then [Clear] else []).
Proof.
  intros Hui. rewrite reload_module_run, reload_body_prefix.
  pose proof (prepared_stdout r w) as Hp. unfold announce_lines in Hp. rewrite Hui in Hp.
  destruct (load_attempt r w) as [h | e]; cbn zeta.
  - destruct (callback r) as [f |].
    + destruct (f h) as [[] | e].
      * rewrite Hui. cbn [snd stdout log_called]. exact Hp.
      * destruct (is_Exception e); [| exact Hp].
        rewrite report_failure_stdout. cbn [show_ui set_module]. rewrite Hui.
        cbn [stdout log_called]. now rewrite app_nil_r.
    + rewrite Hui. exact Hp.
  - destruct (is_Exception e); [| exact Hp].
    rewrite report_failure_stdout, Hui. now rewrite app_nil_r.
Qed.

Lemma config_flags (r1 r2 : CodeReloader) :
  config r1 = config r2 ->
  show_ui r1 = show_ui r2 /\ clear_on_reload r1 = clear_on_reload r2
  /\ callback r1 = callback r2.
Proof. unfold config. intros H. now injection H. Qed.

(** X14. With the console disabled a run prints nothing: the console
    only gets one clear per call of [reload_module] when clearing on
    reload is asked for, and is left as it was otherwise. *)
Theorem dispatch_console_disabled (acts : list action) (r : CodeReloader) (w : World) :
  show_ui r = false ->
  let w' := snd (snd (dispatch acts (r, w))) in
  reloads w <= reloads w'
  /\ stdout w'
     = stdout w ++ List.repeat Clear (if clear_on_reload r then reloads w' - reloads w else 0).
Proof.
  intros Hui. cbn zeta.
  pose proof (dispatch_invariant
                (fun st => config (fst st) = config r
                           /\ reloads w <= reloads (snd st)
                           /\ stdout (snd st)
                              = stdout w
                                ++ List.repeat Clear (if clear_on_reload r
                                                      then reloads (snd st) - reloads w else 0)))
    as Hinv.
  apply Hinv.
  - intros r1 w1 f H. exact H.
  - intros src [r1 w1] (Hc & Hle & Hout). cbn [fst snd] in *.
    split; [now rewrite on_modified_config |].
    destruct (on_modified_state src r1 w1) as (_ & Hr & _).
    destruct (config_flags _ _ Hc) as (Hu & Hcl & _).
    destruct (fires src r1 w1) eqn:Hf.
    + split; [lia |]. rewrite Hr.
      rewrite (on_modified_fired src r1 w1 Hf).
      rewrite reload_module_quiet by (cbn [show_ui set_file_hashes]; congruence).
      cbn [stdout log_hashed clear_on_reload set_file_hashes]. rewrite Hout, Hcl.
      destruct (clear_on_reload r); [| now rewrite app_nil_r].
      rewrite <- app_assoc. f_equal.
      replace (reloads w1 + 1 - reloads w) with (reloads w1 - reloads w + 1) by lia.
      now rewrite repeat_app.
    + destruct (on_modified_idle src r1 w1 Hf) as (_ & Hs & _).
      rewrite Hr, Hs, Nat.add_0_r. now split.
  - cbn [fst snd]. split; [reflexivity | split; [lia |]].
    rewrite Nat.sub_diag. destruct (clear_on_reload r); now rewrite app_nil_r.
Qed.

(** X15. With a callback set, the handle the reloader holds is always
    the last one the callback was given: if that is so before a run (as
    it is at startup, with no handle), it is so after it. *)
Theorem dispatch_callback_sees_current (acts : list action) (r : CodeReloader) (w : World)
    (f : Handle -> outcome unit) :
  callback r = Some f ->
  (forall h, module r = Some h -> last (called w) = Some h) ->
  let st := snd (dispatch acts (r, w)) in
  forall h, module (fst st) = Some h -> last (called (snd st)) = Some h.
Proof.
  intros Hcb Hinit. cbn zeta.
  pose proof (dispatch_invariant
                (fun st => config (fst st) = config r
                           /\ forall h, module (fst st) = Some h
                                        -> last (called (snd st)) = Some h)) as Hinv.
  apply Hinv.
  - intros r1 w1 g H. exact H.
  - intros src [r1 w1] (Hc & Hlast). cbn [fst snd] in *.
    split; [now rewrite on_modified_config |].
    destruct (config_flags _ _ Hc) as (_ & _ & Hcb1). rewrite Hcb in Hcb1.
    destruct (fires src r1 w1) eqn:Hf.
    + rewrite (on_modified_fired src r1 w1 Hf).
      set (r1' := set_file_hashes _ r1). set (w1' := log_hashed _ w1).
      pose proof (reload_module_state r1' w1') as (Hst & _). cbn zeta in Hst.
      destruct (load_attempt r1' w1') as [h1 | e]; destruct Hst as [-> ->].
      * cbn [module set_module callback r1' set_file_hashes]. rewrite Hcb1.
        intros h [= <-]. apply last_snoc.
      * exact Hlast.
    + destruct (on_modified_idle src r1 w1 Hf) as (-> & _ & ->). exact Hlast.
  - split; [reflexivity | exact Hinit].
Qed.

(** X16. A run calls [reload_module] at most once per notification. *)
Theorem dispatch_reload_bound (acts : list action) (r : CodeReloader) (w : World) :
  let w' := snd (snd (dispatch acts (r, w))) in
  reloads w <= reloads w' /\ reloads w' <= reloads w + notifications acts.
Proof.
  cbn zeta. revert r w. induction acts as [| a acts IH]; intros r w; [cbn; lia |].
  destruct a as [p content | p | src].
  - rewrite dispatch_write. apply (IH r (set_fs _ w)).
  - rewrite dispatch_remove. apply (IH r (set_fs _ w)).
  - rewrite dispatch_modified. cbn [notifications].
    destruct (on_modified_state src r w) as (_ & Hr & _).
    destruct (on_modified src (r, w)) as [[[] | e] [r1 w1]]; cbn [fst snd] in *.
    + specialize (IH r1 w1). destruct (fires src r w); lia.
    + destruct (fires src r w); lia.
Qed.

(** *** More on module resolution *)

Lemma first_existing_in (f : FS) (paths : list Path) (path : Path) :
  first_existing f paths = Some path ->
  path ∈ paths /\ exists_ f (str path) = true.
Proof.
  induction paths as [| p paths IH]; [discriminate |]. cbn [first_existing].
  destruct (exists_ f (str p)) eqn:Hex.
  - intros [= <-]. split; [apply list_elem_of_here | exact Hex].
  - intros H. destruct (IH H) as [Hin Hp]. split; [now apply list_elem_of_further | exact Hp].
Qed.

(** X17. What resolution returns is sound: the file path is one of the
    candidates and exists on disk, no candidate before it in the list
    exists, and the module name is the module notation of that path. *)
Theorem verify_module_exists_sound (target : string) (f : FS) (name : string) (path : Path) :
  _verify_module_exists target f = Return (name, path) ->
  exists i : nat,
    possible_paths target !! i = Some path
    /\ exists_ f (str path) = true
    /\ (forall j q, j < i -> possible_paths target !! j = Some q -> exists_ f (str q) = false)
    /\ dotted_name path = Return name.
Proof.
  unfold _verify_module_exists.
  destruct (first_existing f (possible_paths target)) as [p |] eqn:Hfirst; [| discriminate].
  destruct (dotted_name p) as [n | e] eqn:Hn; [| discriminate].
  intros [= <- <-].
  assert (forall paths, first_existing f paths = Some p ->
            exists i, paths !! i = Some p /\ exists_ f (str p) = true
                      /\ forall j q, j < i -> paths !! j = Some q -> exists_ f (str q) = false)
    as Hgen.
  { clear. induction paths as [| a paths IH]; [discriminate |]. cbn [first_existing].
    destruct (exists_ f (str a)) eqn:Hex.
    - intros [= ->]. exists 0. repeat split; [exact Hex |]. intros j q Hj. lia.
    - intros H. destruct (IH H) as (i & Hi & Hp & Hbefore). exists (S i).
      repeat split; [exact Hi | exact Hp |].
      intros [| j] q Hj Hq; [now injection Hq as <- |].
      apply (Hbefore j q); [lia | exact Hq]. }
  destruct (Hgen _ Hfirst) as (i & Hi & Hp & Hbefore).
  exists i. repeat split; assumption.
Qed.

(** *** Plain module names *)

Lemma plain_cons (s : string) :
  plain s = true ->
  exists c rest, s = String c rest /\ c <> "/"%char /\ c <> "."%char
                 /\ List.forallb (fun c => negb (Ascii.eqb c "/") && negb (Ascii.eqb c "."))
                      (list_ascii_of_string rest) = true.
Proof.
  unfold plain. destruct s as [| c rest]; [discriminate |]. cbn [String.eqb negb andb].
  cbn [list_ascii_of_string List.forallb]. intros H.
  apply andb_true_iff in H as [Hc Hrest]. apply andb_true_iff in Hc as [H1 H2].
  exists c, rest. repeat split; try assumption.
  - intros ->. discriminate.
  - intros ->. discriminate.
Qed.

Lemma clean_split (s : string) :
  List.forallb (fun c => negb (Ascii.eqb c "/") && negb (Ascii.eqb c "."))
    (list_ascii_of_string s) = true ->
  PyStr.split "/" s = [s]
  /\ PyStr.split "/" (s +:+ ".py") = [s +:+ ".py"]
  /\ PyStr.replace_scan "/" "." 0 s = s
  /\ (forall i acc, PyStr.rfind_from "." s i acc = acc)
  /\ (forall i acc, PyStr.rfind_from "." (s +:+ ".py") i acc = (i + PyStr.len s)%Z).
Proof.
  induction s as [| c s IH]; intros H.
  - repeat split; try reflexivity. intros i acc. rewrite append_nil.
    unfold PyStr.len. cbn. lia.
  - cbn [list_ascii_of_string List.forallb] in H.
    apply andb_true_iff in H as [Hc Hrest]. apply andb_true_iff in Hc as [H1 H2].
    apply negb_true_iff in H1, H2.
    destruct (IH Hrest) as (I1 & I2 & I3 & I4 & I5).
    rewrite append_cons. cbn [PyStr.split PyStr.rfind_from]. rewrite H1, H2, I1, I2.
    repeat split; try reflexivity.
    + cbn [PyStr.replace_scan String.prefix].
      destruct (ascii_dec "/" c) as [<- | _]; [discriminate |]. now rewrite I3.
    + intros i acc. apply I4.
    + intros i acc. rewrite I5. unfold PyStr.len. cbn [String.length]. lia.
Qed.

Lemma substring_whole_prefix (s t : string) :
  String.substring 0 (String.length s) (s +:+ t) = s.
Proof.
  induction s as [| c s IH]; [now destruct t |].
  rewrite append_cons. cbn [String.length String.substring]. now rewrite IH.
Qed.

(** The single-character scan goes through an append. *)
Lemma scan_slash_app (a b : string) :
  PyStr.replace_scan "/" "." 0 (a +:+ b)
  = PyStr.replace_scan "/" "." 0 a +:+ PyStr.replace_scan "/" "." 0 b.
Proof.
  induction a as [| c a IH]; [reflexivity |].
  rewrite append_cons. cbn [PyStr.replace_scan String.prefix String.length Nat.sub].
  destruct (ascii_dec "/" c) as [<- | _].
  - assert (forall x, String.prefix "" x = true) as Hp by (now destruct x).
    rewrite !Hp, IH. reflexivity.
  - now rewrite IH.
Qed.

(** The candidates of a plain name, and their module notations. *)
Lemma plain_candidates (s : string) :
  plain s = true ->
  possible_paths s
  = [ mkPath "" [s +:+ ".py"]; mkPath "" [s; "__init__.py"]; mkPath "" [s +:+ ".py"];
      mkPath "" ["Utils"; s +:+ ".py"]; mkPath "" ["Utils"; s; "__init__.py"];
      mkPath "" ["Utils"; s +:+ ".py"] ]
  /\ (forall front, dotted_name (mkPath "" (front ++ [s +:+ ".py"]))
                    = Return (let n := PyStr.replace (str (mkPath "" (front ++ [s]))) sep "." in
                              if PyStr.startswith n "." then PyStr.from n 1 else n)).
Proof.
  intros Hplain. destruct (plain_cons s Hplain) as (c & rest & -> & Hslash & Hdot & Hrest).
  set (s := String c rest) in *.
  assert (List.forallb (fun c => negb (Ascii.eqb c "/") && negb (Ascii.eqb c "."))
            (list_ascii_of_string s) = true) as Hclean.
  { subst s. cbn [list_ascii_of_string List.forallb]. rewrite Hrest.
    destruct (Ascii.eqb_spec c "/"); [contradiction |].
    destruct (Ascii.eqb_spec c "."); [contradiction | reflexivity]. }
  destruct (clean_split s Hclean) as (S1 & S2 & S3 & S4 & S5).
  assert (Path_ s = mkPath "" [s]) as Hpath.
  { unfold Path_, rel_parts. rewrite S1. cbn [List.filter].
    assert (keep_part s = true) as ->.
    { subst s. unfold keep_part. cbn [String.eqb].
      destruct (Ascii.eqb_spec c "."); [contradiction | reflexivity]. }
    f_equal. subst s. cbn [splitroot].
    destruct c as [[] [] [] [] [] [] [] []]; try reflexivity. now contradiction Hslash. }
  assert (Path_ (s +:+ ".py") = mkPath "" [s +:+ ".py"]) as Hpy.
  { unfold Path_, rel_parts. rewrite S2. cbn [List.filter]. rewrite keep_part_py.
    f_equal. subst s. rewrite append_cons. cbn [splitroot].
    destruct c as [[] [] [] [] [] [] [] []]; try reflexivity. now contradiction Hslash. }
  assert (stem (mkPath "" [s]) = s) as Hstem.
  { unfold stem, suffix_index, name, PyStr.rfind. cbn [parts List.last]. now rewrite S4. }
  split.
  - rewrite possible_paths_unfold, Hpath, Hstem.
    assert (str (mkPath "" [s]) = s) as -> by reflexivity.
    unfold truediv. rewrite !Hpy, !Hpath. reflexivity.
  - intros front. unfold dotted_name, with_suffix_empty, name. cbn [parts root].
    rewrite List.last_last.
    destruct (String.eqb_spec (s +:+ ".py") "") as [E | _];
      [now apply append_py_not_empty in E |].
    rewrite List.removelast_last.
    assert (stem (mkPath "" (front ++ [s +:+ ".py"])) = s) as ->; [| reflexivity].
    unfold stem, suffix_index, name, PyStr.rfind. cbn [parts]. rewrite List.last_last, S5.
    assert (PyStr.len (s +:+ ".py") = (PyStr.len s + 3)%Z) as ->.
    { unfold PyStr.len. rewrite length_append_str. cbn [String.length]. lia. }
    assert ((0 <? 0 + PyStr.len s)%Z && (0 + PyStr.len s <? PyStr.len s + 3 - 1)%Z = true) as ->.
    { subst s. unfold PyStr.len. cbn [String.length].
      apply andb_true_iff. split; apply Z.ltb_lt; lia. }
    unfold PyStr.upto, PyStr.len. rewrite Z.add_0_l, Nat2Z.id.
    apply substring_whole_prefix.
Qed.

Lemma plain_replace (s : string) :
  plain s = true ->
  PyStr.replace s sep "." = s
  /\ (forall t, PyStr.startswith (s +:+ t) "." = false)
  /\ PyStr.startswith s "." = false.
Proof.
  intros Hplain. destruct (plain_cons s Hplain) as (c & rest & -> & Hslash & Hdot & Hrest).
  assert (List.forallb (fun c => negb (Ascii.eqb c "/") && negb (Ascii.eqb c "."))
            (list_ascii_of_string (String c rest)) = true) as Hclean.
  { cbn [list_ascii_of_string List.forallb]. rewrite Hrest.
    destruct (Ascii.eqb_spec c "/"); [contradiction |].
    destruct (Ascii.eqb_spec c "."); [contradiction | reflexivity]. }
  destruct (clean_split _ Hclean) as (_ & _ & S3 & _).
  split; [exact S3 |].
  assert (forall t, PyStr.startswith (String c t) "." = false) as Hstart.
  { intros t. unfold PyStr.startswith. cbn [String.prefix].
    destruct (ascii_dec "." c) as [<- | _]; [now contradiction Hdot | reflexivity]. }
  split; [intros t; rewrite append_cons; apply Hstart | apply Hstart].
Qed.

(** X20. Resolution of a plain name [s] (not empty, no slash, no dot),
    in full: [s.py] of the working directory gives the module [s]; else
    the package [s/__init__.py] gives the module [s.__init__]; else
    [Utils/s.py] gives [Utils.s]; else [Utils/s/__init__.py] gives
    [Utils.s.__init__]; else the [ImportError]. *)
Theorem verify_module_exists_plain (s : string) (f : FS) :
  plain s = true ->
  _verify_module_exists s f
  = if exists_ f (s +:+ ".py") then
      Return (s, mkPath "" [s +:+ ".py"])
    else if exists_ f (s +:+ "/__init__.py") then
      Return (s +:+ ".__init__", mkPath "" [s; "__init__.py"])
    else if exists_ f ("Utils/" +:+ s +:+ ".py") then
      Return ("Utils." +:+ s, mkPath "" ["Utils"; s +:+ ".py"])
    else if exists_ f ("Utils/" +:+ s +:+ "/__init__.py") then
      Return ("Utils." +:+ s +:+ ".__init__", mkPath "" ["Utils"; s; "__init__.py"])
    else Raise (ImportError (not_found_message s (possible_paths s))).
Proof.
  intros Hplain.
  destruct (plain_candidates s Hplain) as [Hcands Hname].
  destruct (plain_replace s Hplain) as (Hrep & Hstart & Hstart0).
  assert (dotted_name (mkPath "" [s +:+ ".py"]) = Return s) as N1.
  { pose proof (Hname []) as H. cbn [app] in H. rewrite H. cbn zeta.
    change (str (mkPath "" [s])) with s. now rewrite Hrep, Hstart0. }
  assert (dotted_name (mkPath "" ["Utils"; s +:+ ".py"]) = Return ("Utils." +:+ s)) as N4.
  { pose proof (Hname ["Utils"]) as H. cbn [app] in H. rewrite H. cbn zeta.
    change (str (mkPath "" ["Utils"; s])) with ("Utils" +:+ "/" +:+ s).
    unfold PyStr.replace, sep. rewrite !scan_slash_app.
    unfold PyStr.replace, sep in Hrep. rewrite Hrep. reflexivity. }
  assert (forall front,
            dotted_name (mkPath "" (front ++ [s; "__init__.py"]))
            = Return (let n := PyStr.replace (str (mkPath "" (front ++ [s; "__init__"]))) sep "." in
                      if PyStr.startswith n "." then PyStr.from n 1 else n)) as Hpkg.
  { intros front.
    assert (name (mkPath "" (front ++ [s; "__init__.py"])) = "__init__.py") as Hn.
    { unfold name. cbn [parts].
      change (front ++ [s; "__init__.py"]) with (front ++ [s] ++ ["__init__.py"]).
      rewrite app_assoc. apply List.last_last. }
    assert (stem (mkPath "" (front ++ [s; "__init__.py"])) = "__init__") as Hs
        by (unfold stem; now rewrite Hn).
    unfold dotted_name, with_suffix_empty. rewrite Hn, Hs. cbn [parts root].
    change (String.eqb "__init__.py" "") with false. cbv iota.
    change (front ++ [s; "__init__.py"]) with (front ++ [s] ++ ["__init__.py"]).
    rewrite app_assoc, List.removelast_last, <- app_assoc. reflexivity. }
  assert (dotted_name (mkPath "" [s; "__init__.py"]) = Return (s +:+ ".__init__")) as N2.
  { pose proof (Hpkg []) as H. cbn [app] in H. rewrite H. cbn zeta.
    change (str (mkPath "" [s; "__init__"])) with (s +:+ "/__init__").
    unfold PyStr.replace, sep. rewrite scan_slash_app.
    unfold PyStr.replace, sep in Hrep. rewrite Hrep.
    change (PyStr.replace_scan "/" "." 0 "/__init__") with ".__init__".
    now rewrite Hstart. }
  assert (dotted_name (mkPath "" ["Utils"; s; "__init__.py"])
          = Return ("Utils." +:+ s +:+ ".__init__")) as N5.
  { pose proof (Hpkg ["Utils"]) as H. cbn [app] in H. rewrite H. cbn zeta.
    change (str (mkPath "" ["Utils"; s; "__init__"])) with ("Utils" +:+ "/" +:+ s +:+ "/__init__").
    unfold PyStr.replace, sep. rewrite !scan_slash_app.
    unfold PyStr.replace, sep in Hrep. rewrite Hrep. reflexivity. }
  unfold _verify_module_exists. rewrite Hcands. cbn [first_existing].
  change (str (mkPath "" [s +:+ ".py"])) with (s +:+ ".py").
  change (str (mkPath "" [s; "__init__.py"])) with (s +:+ "/__init__.py").
  change (str (mkPath "" ["Utils"; s +:+ ".py"])) with ("Utils/" +:+ s +:+ ".py").
  change (str (mkPath "" ["Utils"; s; "__init__.py"])) with ("Utils/" +:+ s +:+ "/__init__.py").
  destruct (exists_ f (s +:+ ".py")); [now rewrite N1 |].
  destruct (exists_ f (s +:+ "/__init__.py")); [now rewrite N2 |].
  destruct (exists_ f ("Utils/" +:+ s +:+ ".py")); [now rewrite N4 |].
  destruct (exists_ f ("Utils/" +:+ s +:+ "/__init__.py")); [now rewrite N5 |].
  reflexivity.
Qed.

(** *** The name handed to the resolver *)

(** C10. Before resolution the program removes every occurrence of
    [".py"] from the target, wherever it stands.  For every target, the
    reloader [watch_and_reload] builds is the one of the target with
    [replace('.py', '')] applied: that name is its target, and its
    module name and file path are what [_verify_module_exists] answers
    for that name; when resolution of that name fails, the error leaves
    [watch_and_reload] and nothing else has happened.  Through the
    command line the replacement is applied twice, by the [__main__]
    block and by [watch_and_reload].  [replace('.py', '')] deletes an
    occurrence and goes on with what follows it, and changes nothing
    else: a name without occurrence is unchanged, a name whose only
    occurrence is its suffix loses the suffix, also through the two
    passes; ["my.pymod"] becomes ["mymod"], and with both [mymod.py]
    and [my.pymod.py] on disk the script watches [mymod.py], while the
    name as given resolves to [my.pymod.py]. *)
Theorem strip_py_everywhere (s : string)
    (Hsuffix : forall i, PyStr.occurs_at ".py" (s +:+ ".py") i -> i = String.length s) :
  (forall (target : string) cb ui clear acts (w : World) r w',
      watch_and_reload target cb ui clear acts w = (Return r, w') ->
      target_module r = PyStr.replace target ".py" ""
      /\ _verify_module_exists (PyStr.replace target ".py" "") (fs w)
         = Return (module_name r, module_file_path r))
  /\ (forall (target : string) cb ui clear acts (w : World) e,
      _verify_module_exists (PyStr.replace target ".py" "") (fs w) = Raise e ->
      watch_and_reload target cb ui clear acts w = (Raise e, w))
  /\ (forall (args : Namespace) (m : string) acts (w : World),
      arg_version args = false -> arg_module args = Some m -> m <> "" ->
      let twice := PyStr.replace (PyStr.replace m ".py" "") ".py" "" in
      (forall msg, _verify_module_exists twice (fs w) = Raise (ImportError msg) ->
                   main args acts w = (1%Z, print (Error msg) w))
      /\ (forall r w',
            watch_and_reload (PyStr.replace m ".py" "") None (negb (arg_noUI args))
              (arg_clear args) acts w = (Return r, w') ->
            main args acts w = (0%Z, w')
            /\ target_module r = twice
            /\ _verify_module_exists twice (fs w) = Return (module_name r, module_file_path r)))
  /\ (forall a b : string,
        PyStr.replace (a +:+ ".py" +:+ b) ".py" ""
        = PyStr.replace a ".py" "" +:+ PyStr.replace b ".py" "")
  /\ (forall t : string,
        (forall i, ~ PyStr.occurs_at ".py" t i) -> PyStr.replace t ".py" "" = t)
  /\ PyStr.replace (s +:+ ".py") ".py" "" = s
  /\ PyStr.replace (PyStr.replace (s +:+ ".py") ".py" "") ".py" "" = s
  /\ PyStr.replace "my.pymod" ".py" "" = "mymod"
  /\ (forall cb ui clear acts (w : World) r w',
        fs w = Demo.two_modules ->
        watch_and_reload "my.pymod" cb ui clear acts w = (Return r, w') ->
        module_name r = "mymod" /\ module_file_path r = Path_ "mymod.py")
  /\ _verify_module_exists "my.pymod" Demo.two_modules
     = Return ("my.pymod", Path_ "my.pymod.py").
Proof.
  assert (forall (target : string) cb ui clear acts (w : World) r w',
            watch_and_reload target cb ui clear acts w = (Return r, w') ->
            target_module r = PyStr.replace target ".py" ""
            /\ _verify_module_exists (PyStr.replace target ".py" "") (fs w)
               = Return (module_name r, module_file_path r)) as Hrun.
  { intros target cb ui clear acts w r w'. unfold watch_and_reload, __init__.
    destruct (_verify_module_exists _ (fs w)) as [[name path] | e]; [| discriminate].
    set (r0 := mkReloader _ _ _ _ _ _ _ _ _). set (w0 := if ui then _ else w).
    assert (config (fst (snd (dispatch acts (r0, w0)))) = config r0) as Hconfig.
    { apply (dispatch_invariant (fun st => config (fst st) = config r0)); [easy | | reflexivity].
      intros src [r1 w1] H. cbn [fst] in *. now rewrite on_modified_config. }
    destruct (dispatch acts (r0, w0)) as [o [r1 w1]]. cbn [fst snd] in Hconfig.
    intros [= <- _]. unfold config in Hconfig. injection Hconfig as -> _ _ _ _ -> ->.
    now split. }
  assert (PyStr.replace s ".py" "" = s) as Hs.
  { apply scan_py_none. intros i Hi.
    pose proof (occurs_at_length s i Hi).
    pose proof (Hsuffix i (occurs_at_append s ".py" i Hi)). lia. }
  assert (PyStr.replace (s +:+ ".py") ".py" "" = s) as Hone.
  { change (s +:+ ".py") with (s +:+ ".py" +:+ "").
    unfold PyStr.replace in *. rewrite (scan_py_app (String.length s)) by lia.
    rewrite Hs. apply append_empty. }
  repeat apply conj.
  - exact Hrun.
  - intros target cb ui clear acts w e He. unfold watch_and_reload, __init__. now rewrite He.
  - intros args m acts w Hv Hm Hne twice. split.
    + intros msg Hmsg. unfold main. rewrite Hv, Hm.
      destruct m as [| c m']; [contradiction |].
      unfold watch_and_reload, __init__. fold twice. now rewrite Hmsg.
    + intros r w' Hret. destruct (Hrun _ _ _ _ _ _ _ _ Hret) as [Ht Hres].
      unfold main. rewrite Hv, Hm. destruct m as [| c m']; [contradiction |].
      rewrite Hret. now repeat split.
  - intros a b. apply (scan_py_app (String.length a)). lia.
  - intros t. apply scan_py_none.
  - exact Hone.
  - now rewrite Hone.
  - reflexivity.
  - intros cb ui clear acts w r w' Hfs Hret.
    destruct (Hrun _ _ _ _ _ _ _ _ Hret) as [_ Hres]. rewrite Hfs in Hres.
    assert (_verify_module_exists (PyStr.replace "my.pymod" ".py" "") Demo.two_modules
            = Return ("mymod", Path_ "mymod.py")) as Hv by (vm_compute; reflexivity).
    rewrite Hv in Hres. injection Hres as <- <-. now split.
  - vm_compute. reflexivity.
Qed.

End Properties.

(* ===================================================================== *)
(** ** The properties on the concrete runtime                            *)
(* ===================================================================== *)

Section Scenarios.

#[local] Existing Instance Demo.runtime.

Import Demo.

(** [first_load_is_lazy] on the concrete disk: [m.py] is resolved, a
    write to another file is not a notification, and the first
    notification for [m.py] loads it. *)
Lemma first_load_is_lazy_witness :
  (exists w' : World,
     watch_and_reload "m.py" None true false [Write "/work/notes.txt" x2] world0
     = (Return (unloaded None), w')
     /\ reloads w' = 0 /\ hashed w' = [] /\ called w' = []
     /\ sys_path w' = ["/usr/lib/python3"])
  /\ (let st := snd (on_modified "/work/m.py" (unloaded None, world0)) in
      module (fst st) = Some ("m", x1) /\ reloads (snd st) = 1).
Proof.
  destruct (first_load_is_lazy "m.py" None true false [Write "/work/notes.txt" x2] world0
              "m" (Path_ "m.py") eq_refl eq_refl) as [Hstart Hfirst].
  split.
  - exact Hstart.
  - apply (Hfirst (unloaded None) world0 "/work/m.py" x1 ("m", x1));
      vm_compute; reflexivity.
Defined.

(** After startup with a valid target and no modification the handle
    is null and [reload_module] has not been called. *)
Lemma startup_without_load :
  match watch_and_reload "m" None true false [] world0 with
  | (Return r, w') => module r = None /\ reloads w' = 0 /\ called w' = []
  | (Raise _, _) => False
  end.
Proof. vm_compute. repeat split; reflexivity. Qed.
(** The cases of the change check on the concrete disk. *)
Lemma has_file_changed_cases_witness :
  _has_file_changed "/work/gone.py" (unloaded None, world0) = (Return false, (unloaded None, world0))
  /\ (exists msg : string,
        _has_file_changed "/work" (unloaded None, world0)
        = (Raise (OSError msg), (unloaded None, world0)))
  /\ fst (_has_file_changed "/work/m.py" (unloaded None, world0)) = Return true
  /\ fst (_has_file_changed "/work/m.py"
            (set_file_hashes {["/work/m.py" := Hashlib.md5 x2]} (unloaded None), world0))
     = Return true
  /\ _has_file_changed "/work/m.py"
       (set_file_hashes {["/work/m.py" := Hashlib.md5 x1]} (unloaded None), world0)
     = (Return false,
        (set_file_hashes {["/work/m.py" := Hashlib.md5 x1]} (unloaded None),
         log_hashed "/work/m.py" world0)).
Proof.
  split; [| split; [| split; [| split]]].
  - destruct (has_file_changed_cases "/work/gone.py" (unloaded None) world0) as (H & _).
    apply H. vm_compute. reflexivity.
  - destruct (has_file_changed_cases "/work" (unloaded None) world0) as (_ & _ & _ & _ & H).
    apply H. left. vm_compute. reflexivity.
  - destruct (has_file_changed_cases "/work/m.py" (unloaded None) world0) as (_ & H & _).
    rewrite (H x1); [reflexivity | vm_compute; reflexivity | vm_compute; reflexivity].
  - destruct (has_file_changed_cases "/work/m.py"
                (set_file_hashes {["/work/m.py" := Hashlib.md5 x2]} (unloaded None)) world0)
      as (_ & _ & H & _).
    rewrite (H x1 (Hashlib.md5 x2)); [reflexivity | vm_compute; reflexivity
                                     | vm_compute; reflexivity | vm_compute; discriminate].
  - destruct (has_file_changed_cases "/work/m.py"
                (set_file_hashes {["/work/m.py" := Hashlib.md5 x1]} (unloaded None)) world0)
      as (_ & _ & _ & H & _).
    apply (H x1); vm_compute; reflexivity.
Defined.

(** A notification for another file of the working directory. *)
Lemma on_modified_other_file_witness :
  on_modified "/work/other.py" (loaded (Some quiet_callback), world0)
  = (Return tt, (loaded (Some quiet_callback), world0)).
Proof.
  apply on_modified_other_file. vm_compute. discriminate.
Defined.

(** [m] resolves to the first candidate; [nothere] has no candidate. *)
Lemma verify_module_exists_priority_witness :
  (exists name : string, _verify_module_exists "m" disk = Return (name, Path_ "m.py"))
  /\ exists msg : string, _verify_module_exists "nothere" disk = Raise (ImportError msg).
Proof.
  destruct (verify_module_exists_priority "m" disk) as (_ & Hfound & _).
  destruct (verify_module_exists_priority "nothere" disk) as (_ & _ & Hnone).
  split.
  - apply (Hfound 0 (Path_ "m.py")); [reflexivity | vm_compute; reflexivity |].
    intros j q Hj. lia.
  - eexists. apply Hnone. intros path Hin.
    rewrite possible_paths_unfold in Hin.
    repeat (apply elem_of_cons in Hin as [-> | Hin]); try (vm_compute; reflexivity).
    inversion Hin.
Defined.




(** A callback that calls [sys.exit]: the [SystemExit] is not caught,
    it leaves [reload_module] and the notification handler; nothing is
    printed, and the handle is the one just loaded. *)
Lemma system_exit_leaves_reload_module :
  let self := unloaded (Some exiting_callback) in
  fst (reload_module (self, world0)) = Raise (SystemExit 3)
  /\ fst (on_modified "/work/m.py" (self, world0)) = Raise (SystemExit 3)
  /\ stdout (snd (snd (reload_module (self, world0)))) = []
  /\ module (fst (snd (reload_module (self, world0)))) = Some ("m", x1).
Proof. vm_compute. repeat split; reflexivity. Qed.


(** C9 at the failing input.  The target is ["."] and the working
    directory holds only [..py], so the module name is empty.  The file
    is notified, rewritten, notified again.  With the console enabled
    the failure report of the first notification raises, the observer
    thread ends, and the digest table keeps the first digest; with the
    console disabled the second notification is handled as well. *)
Theorem ui_flag_changes_the_run :
  let acts := [Modified "/work/..py"; Write "/work/..py" x2; Modified "/work/..py"] in
  let digest_and_calls (run : outcome CodeReloader * World) :=
    match run with
    | (Return r, w) => Some (file_hashes r !! "/work/..py", module r, reloads w)
    | (Raise _, _) => None
    end in
  digest_and_calls (watch_and_reload "." None true false acts dots_world)
  = Some (Some (Hashlib.md5 x1), None, 1)
  /\ digest_and_calls (watch_and_reload "." None false false acts dots_world)
     = Some (Some (Hashlib.md5 x2), None, 2)
  /\ Hashlib.md5 x1 <> Hashlib.md5 x2
  /\ fst (on_modified "/work/..py"
            (mkReloader "." None None ∅ work true false "" (Path_ "..py"), dots_world))
     = Raise (ValueError "empty name")
  /\ fst (on_modified "/work/..py"
            (mkReloader "." None None ∅ work false false "" (Path_ "..py"), dots_world))
     = Return tt.
Proof.
  cbv zeta. repeat split; try (vm_compute; reflexivity).
  vm_compute. discriminate.
Qed.

(** The exits of the command line on the concrete disk: help wins over
    everything, then the version flag, then the missing target, then
    the target that is not found. *)
Lemma command_line_exit_codes_witness :
  hot_reload ["m"; "--he"; "-c"] [] world0 = (0%Z, print Help world0)
  /\ hot_reload ["-cv"; "m"; "-noUI"] [Modified "/work/m.py"] world0
     = (0%Z, print (Logo "1.0.0") world0)
  /\ hot_reload ["-c"] [] world0 = (1%Z, print Help world0)
  /\ fst (hot_reload ["-no"; "--"; "nothere.py"] [] world0) = 1%Z.
Proof.
  split; [| split; [| split]].
  - destruct (command_line_exit_codes ["m"; "--he"; "-c"] [] world0) as (H & _).
    + vm_compute. discriminate.
    + apply H. vm_compute. reflexivity.
  - destruct (command_line_exit_codes ["-cv"; "m"; "-noUI"] [Modified "/work/m.py"] world0)
      as (_ & H).
    + vm_compute. discriminate.
    + destruct H as (Hv & _); [vm_compute; reflexivity |].
      apply Hv. vm_compute. reflexivity.
  - destruct (command_line_exit_codes ["-c"] [] world0) as (_ & H).
    + vm_compute. discriminate.
    + destruct H as (_ & Hm & _); [vm_compute; reflexivity |].
      apply Hm; [vm_compute; reflexivity | now left].
  - destruct (command_line_exit_codes ["-no"; "--"; "nothere.py"] [] world0) as (_ & H).
    + vm_compute. discriminate.
    + destruct H as (_ & _ & Hn); [vm_compute; reflexivity |].
      rewrite (Hn ltac:(vm_compute; reflexivity) "nothere.py");
        [reflexivity | vm_compute; reflexivity | discriminate | vm_compute; reflexivity].
Defined.

(** The help flag: with no target and no version flag the exit code is
    0, not 1; with the version flag the help is printed, not the
    banner. *)
Lemma help_flag_exits_zero :
  holds FVersion ["-h"] = false
  /\ targets ["-h"] = []
  /\ hot_reload ["-h"] [] world0 = (0%Z, print Help world0)
  /\ holds FVersion ["-v"; "-h"] = true
  /\ hot_reload ["-v"; "-h"] [] world0 = (0%Z, print Help world0)
  /\ print Help world0 <> print (Logo VERSION) world0.
Proof. repeat split; try (vm_compute; reflexivity). discriminate. Qed.

(** The working directory exists and has no recorded digest, and its
    check neither records one nor answers: it raises. *)
Lemma existing_path_without_digest_raises :
  exists_ (fs world0) "/work" = true
  /\ file_hashes (unloaded None) !! "/work" = None
  /\ _has_file_changed "/work" (unloaded None, world0)
     = (Raise (OSError "Is a directory: /work"), (unloaded None, world0))
  /\ file_hashes (fst (snd (_has_file_changed "/work" (unloaded None, world0)))) !! "/work"
     = None.
Proof. vm_compute. repeat split; reflexivity. Qed.

(** The first check of [m.py] says "changed", the second "unchanged". *)
Lemma has_file_changed_second_check_witness :
  let st1 := snd (_has_file_changed "/work/m.py" (unloaded None, world0)) in
  fst (_has_file_changed "/work/m.py" st1) = Return false
  /\ fst (snd (_has_file_changed "/work/m.py" st1)) = fst st1.
Proof.
  apply (has_file_changed_second_check "/work/m.py" (unloaded None) world0 true).
  vm_compute. reflexivity.
Defined.

(** A check of [m.py] records its digest and leaves the entry of
    another path as it was. *)
Lemma has_file_changed_frame_witness :
  let st' := snd (_has_file_changed "/work/m.py"
                    (set_file_hashes {["/work/other.py" := "0"]} (unloaded None), world0)) in
  file_hashes (fst st') !! "/work/other.py" = Some "0"
  /\ file_hashes (fst st') !! "/work/m.py" = Some (Hashlib.md5 x1).
Proof.
  destruct (has_file_changed_frame "/work/m.py"
              (set_file_hashes {["/work/other.py" := "0"]} (unloaded None)) world0)
    as (Hother & _ & _ & _ & _ & _ & _ & Hkey).
  split.
  - rewrite Hother; [reflexivity | discriminate].
  - apply Hkey. vm_compute. reflexivity.
Defined.

(** Both directories exist and are new to the path: [Utils] comes
    first. *)
Lemma add_current_dir_to_path_order_witness :
  sys_path (snd (snd (_add_current_dir_to_path
                        (unloaded None, mkWorld utils_disk ["/usr/lib/python3"] [] [] [] 0))))
  = ["/work/Utils"; "/work"; "/usr/lib/python3"].
Proof.
  apply (add_current_dir_to_path_order (unloaded None)
           (mkWorld utils_disk ["/usr/lib/python3"] [] [] [] 0));
    try (vm_compute; reflexivity).
  - intros H. apply list_elem_of_singleton in H. discriminate.
  - intros H. apply list_elem_of_singleton in H. discriminate.
Defined.

(** The key the digest table gets in a run on [m.py]. *)
Lemma dispatch_digest_keys_witness :
  exists (f : FS) (content : list byte),
    f ∈ notified_disks [Modified "/work/m.py"] disk
    /\ "/work/m.py" = str (resolve f (module_file_path (unloaded None)))
    /\ f !! "/work/m.py" = Some (File content).
Proof.
  apply (dispatch_digest_keys [Modified "/work/m.py"] (unloaded None) world0).
  vm_compute. discriminate.
Defined.

(** Two reloads with the console disabled and clearing enabled: two
    clears and nothing else. *)
Lemma dispatch_console_disabled_witness :
  stdout (snd (snd (dispatch [Modified "/work/m.py"; Write "/work/m.py" x2;
                              Modified "/work/m.py"; Modified "/work/m.py"]
                             (silent, world0))))
  = [Clear; Clear].
Proof.
  destruct (dispatch_console_disabled
              [Modified "/work/m.py"; Write "/work/m.py" x2;
               Modified "/work/m.py"; Modified "/work/m.py"] silent world0 eq_refl)
    as [_ H].
  rewrite H. vm_compute. reflexivity.
Defined.

(** After a load and a reload the callback has seen the current
    handle last. *)
Lemma dispatch_callback_sees_current_witness :
  let st := snd (dispatch [Modified "/work/m.py"; Write "/work/m.py" x2; Modified "/work/m.py"]
                          (unloaded (Some quiet_callback), world0)) in
  module (fst st) = Some ("m", x2) /\ last (called (snd st)) = Some ("m", x2).
Proof.
  cbn zeta. split; [vm_compute; reflexivity |].
  apply (dispatch_callback_sees_current _ (unloaded (Some quiet_callback)) world0
           quiet_callback eq_refl).
  - intros h H. discriminate.
  - vm_compute. reflexivity.
Defined.

(** [m] resolved on the concrete disk. *)
Lemma verify_module_exists_sound_witness :
  exists i : nat,
    possible_paths "m" !! i = Some (Path_ "m.py")
    /\ exists_ disk (str (Path_ "m.py")) = true
    /\ (forall j q, j < i -> possible_paths "m" !! j = Some q -> exists_ disk (str q) = false)
    /\ dotted_name (Path_ "m.py") = Return "m".
Proof.
  apply (verify_module_exists_sound "m" disk "m" (Path_ "m.py")).
  vm_compute. reflexivity.
Defined.

(** The plain name [m] as a file, as a package, and in [Utils]. *)
Lemma verify_module_exists_plain_witness :
  _verify_module_exists "m" disk = Return ("m", Path_ "m.py")
  /\ _verify_module_exists "m" package_disk = Return ("m.__init__", Path_ "m/__init__.py")
  /\ _verify_module_exists "m" utils_disk = Return ("Utils.m", Path_ "Utils/m.py").
Proof.
  split; [| split].
  - rewrite (verify_module_exists_plain "m" disk eq_refl). vm_compute. reflexivity.
  - rewrite (verify_module_exists_plain "m" package_disk eq_refl). vm_compute. reflexivity.
  - rewrite (verify_module_exists_plain "m" utils_disk eq_refl). vm_compute. reflexivity.
Defined.

(** [m.py] has its only occurrence of [.py] at the end; in
    [no.pywhere.py] both occurrences go, and nothing is found under the
    name [nowhere]; [m.p.pyy] given on the command line becomes [m.py]
    and then [m], which is found. *)
Lemma strip_py_everywhere_witness :
  PyStr.replace ("m" +:+ ".py") ".py" "" = "m"
  /\ PyStr.replace (PyStr.replace ("m" +:+ ".py") ".py" "") ".py" "" = "m"
  /\ PyStr.replace "my.pymod" ".py" "" = "mymod"
  /\ watch_and_reload "no.pywhere.py" None true false [Modified "/work/m.py"] world0
     = (Raise (ImportError (not_found_message "nowhere" (possible_paths "nowhere"))), world0)
  /\ match watch_and_reload "m.py" None false false [] world0 with
     | (Return r, _) => target_module r = "m" /\ module_file_path r = Path_ "m.py"
     | (Raise _, _) => False
     end
  /\ fst (main (mkArgs (Some "m.p.pyy") false true false) [] world0) = 0%Z
  /\ match watch_and_reload "my.pymod" None false false []
             (mkWorld two_modules ["/usr/lib/python3"] [] [] [] 0) with
     | (Return r, _) => module_file_path r = Path_ "mymod.py"
     | (Raise _, _) => False
     end.
Proof.
  assert (forall i, PyStr.occurs_at ".py" ("m" +:+ ".py") i -> i = String.length "m") as Hm.
  { intros i Hi. pose proof (occurs_at_length _ i Hi) as Hlen. simpl in Hlen.
    destruct i as [| [| i]]; [vm_compute in Hi; discriminate | reflexivity | lia]. }
  destruct (strip_py_everywhere "m" Hm)
    as (Hrun & Hfail & Hmain & _ & _ & H1 & H2 & H3 & Htwo & _).
  split; [exact H1 | split; [exact H2 | split; [exact H3 | split; [| split; [| split]]]]].
  - apply Hfail. vm_compute. reflexivity.
  - destruct (watch_and_reload "m.py" None false false [] world0) as [[r | e] w'] eqn:E.
    + destruct (Hrun _ _ _ _ _ _ _ _ E) as [Ht Hres]. split; [exact Ht |].
      vm_compute in Hres. now injection Hres.
    + vm_compute in E. discriminate.
  - destruct (Hmain (mkArgs (Some "m.p.pyy") false true false) "m.p.pyy" [] world0
                eq_refl eq_refl ltac:(discriminate)) as [_ Hok].
    destruct (watch_and_reload (PyStr.replace "m.p.pyy" ".py" "") None
                (negb (arg_noUI (mkArgs (Some "m.p.pyy") false true false)))
                (arg_clear (mkArgs (Some "m.p.pyy") false true false)) [] world0)
      as [[r | e] w'] eqn:E.
    + destruct (Hok r w' eq_refl) as (-> & _). reflexivity.
    + vm_compute in E. discriminate.
  - destruct (watch_and_reload "my.pymod" None false false []
                (mkWorld two_modules ["/usr/lib/python3"] [] [] [] 0)) as [[r | e] w'] eqn:E.
    + exact (proj2 (Htwo None false false []
                      (mkWorld two_modules ["/usr/lib/python3"] [] [] [] 0) r w' eq_refl E)).
    + vm_compute in E. discriminate.
Defined.

End Scenarios.
